(** * LLM_Server: the YouTube question-answering pipeline

    A shallow embedding of [youtube.js] ([askYoutube], [namespaceExists])
    and of the [POST /ask-youtube] route of [server.js].

    The module-level [embeddingCache] and the Pinecone index are fields of
    an explicit [World] that every operation threads through; a thrown
    JavaScript exception is the [Throw] outcome of a small state-and-error
    monad, which, like JavaScript, keeps the state changes made before the
    throw.  The collaborators that live outside the repository (Pinecone,
    OpenAI, LangChain, the YouTube loader, the platform's [URL], [Date],
    [String.prototype.trim] and number printing) are the fields of an
    environment [Env]; their
    answers may depend on the whole history of the run, so a collaborator
    can fail on one call and succeed on the next.  What is modelled are the
    runs in which every awaited call settles and every stream ends. *)

From Stdlib Require Import ZArith QArith Qround String Ascii List Lia.
From Stdlib Require Import DecimalString.
From stdpp Require Import base option gmap strings list.

Local Open Scope Z_scope.
Local Open Scope string_scope.

(** ** JavaScript values used by the code *)

(** An [Error] object; only its [message] is ever read. *)
Record JsError := MkError { message : string }.

(** The result of evaluating a block: it completes with a value or throws. *)
Inductive Outcome (A : Type) : Type :=
| Return (a : A)
| Throw (error : JsError).
Arguments Return {A} a.
Arguments Throw {A} error.

(** What [namespaceExists] can hand back: [a && b] evaluates to [a] itself
    when [a] is falsy, so besides the two booleans the value [undefined]
    is possible. *)
Inductive JsValue : Type :=
| JsUndefined
| JsBool (b : bool).

Definition truthy (v : JsValue) : bool :=
  match v with
  | JsBool true => true
  | _ => false
  end.

(** Truthiness of an optional string ([undefined] and [""] are falsy). *)
Definition truthyString (s : option string) : bool :=
  match s with
  | Some s => negb (String.eqb s "")
  | None => false
  end.

(** Truthiness of an optional number; the finite doubles are rationals, and
    the only falsy one is zero. *)
Definition truthyNumber (n : option Q) : bool :=
  match n with
  | Some q => negb (Qeq_bool q 0)
  | None => false
  end.

(** [a || b] on an optional string with a string default. *)
Definition orElse (s : option string) (default : string) : string :=
  match s with
  | Some s => if String.eqb s "" then default else s
  | None => default
  end.

(** Decimal digits with a leading minus sign: how JavaScript prints an
    integral number of magnitude below 10^21. *)
Definition decimal (z : Z) : string :=
  NilZero.string_of_int (Z.to_int z).

Definition newline : string := String (ascii_of_nat 10) "".

(** [Array.prototype.join]. *)
Fixpoint join (sep : string) (parts : list string) : string :=
  match parts with
  | [] => ""
  | [s] => s
  | s :: rest => s +:+ sep +:+ join sep rest
  end.

(** ** Documents *)

Inductive MetaValue : Type :=
| MetaString (s : string)
| MetaNumber (n : nat).

(** A LangChain [Document]: text plus a metadata object. *)
Record Document := MkDocument {
  pageContent : string;
  metadata : list (string * MetaValue)
}.

(** ** Configuration *)

Record Config := MkConfig {
  modelName : string;
  temperature : Q;
  embeddingModel : string;
  chunkSize : nat;
  chunkOverlap : nat;
  maxRetries : nat;
  retryDelay : Z;
  maxConcurrency : nat;
  topK : nat;
  cacheTTL : Z
}.

Definition DEFAULT_CONFIG : Config := {|
  modelName := "gpt-3.5-turbo";
  temperature := 2 # 10;
  embeddingModel := "text-embedding-3-small";
  chunkSize := 1000;
  chunkOverlap := 150;
  maxRetries := 3;
  retryDelay := 2000;
  maxConcurrency := 5;
  topK := 6;
  cacheTTL := 24 * 60 * 60 * 1000
|}.

(** The optional [config] argument of [askYoutube]: any subset of the keys. *)
Record ConfigOverrides := MkOverrides {
  o_modelName : option string;
  o_temperature : option Q;
  o_embeddingModel : option string;
  o_chunkSize : option nat;
  o_chunkOverlap : option nat;
  o_maxRetries : option nat;
  o_retryDelay : option Z;
  o_maxConcurrency : option nat;
  o_topK : option nat;
  o_cacheTTL : option Z
}.

Definition noOverrides : ConfigOverrides :=
  MkOverrides None None None None None None None None None None.

(** [{ ...DEFAULT_CONFIG, ...config }] *)
Definition mergeConfig (base : Config) (o : ConfigOverrides) : Config := {|
  modelName := default (modelName base) (o_modelName o);
  temperature := default (temperature base) (o_temperature o);
  embeddingModel := default (embeddingModel base) (o_embeddingModel o);
  chunkSize := default (chunkSize base) (o_chunkSize o);
  chunkOverlap := default (chunkOverlap base) (o_chunkOverlap o);
  maxRetries := default (maxRetries base) (o_maxRetries o);
  retryDelay := default (retryDelay base) (o_retryDelay o);
  maxConcurrency := default (maxConcurrency base) (o_maxConcurrency o);
  topK := default (topK base) (o_topK o);
  cacheTTL := default (cacheTTL base) (o_cacheTTL o)
|}.

(** The separators handed to [RecursiveCharacterTextSplitter]. *)
Definition separators : list string :=
  [newline +:+ newline; newline; ". "; "! "; "? "; " "; ""].

(** The [context] argument of [askYoutube]. *)
Record Context := MkContext {
  title : option string;
  description : option string;
  timestamp : option Q;
  transcript : option string
}.

(** ** The world: program state and interaction history *)

(** Every call that leaves [askYoutube] or the route handler, in the order
    the calls are made. *)
Inductive Event : Type :=
| NewChatOpenAI (model : string)
| NewOpenAIEmbeddings (model : string)
| NewPineconeIndex
| DescribeIndexStats
| YoutubeLoaderLoad (videoUrl : string)
| SplitText (text : string)
| FromExistingIndex (namespace : string)
| AddDocuments (namespace : string) (documents : list Document)
| SetTimeout (ms : Z)
| RetrieverInvoke (namespace query : string) (k : nat)
| PromptFromMessages (system user : string)
| PipeChain
| ImportYoutubeModule
| ChainStream (query : string).

(** The store write. *)
Definition isWrite (e : Event) : bool :=
  match e with
  | AddDocuments _ _ => true
  | _ => false
  end.

(** The calls of the ingestion phase: transcript loader, splitter, write. *)
Definition isIngestion (e : Event) : bool :=
  match e with
  | YoutubeLoaderLoad _ | SplitText _ | AddDocuments _ _ => true
  | _ => false
  end.

(** Building the prompt, building the chain, running the chain. *)
Definition isModelUse (e : Event) : bool :=
  match e with
  | PromptFromMessages _ _ | PipeChain | ChainStream _ => true
  | _ => false
  end.

Definition isRetrieval (e : Event) : bool :=
  match e with
  | RetrieverInvoke _ _ _ => true
  | _ => false
  end.

Record World := MkWorld {
  embeddingCache : gmap string Z;
  pinecone : gmap string (list Document);
  trace : list Event;
  console : list string
}.

Definition setCache (c : gmap string Z) (w : World) : World :=
  MkWorld c (pinecone w) (trace w) (console w).
Definition setPinecone (p : gmap string (list Document)) (w : World) : World :=
  MkWorld (embeddingCache w) p (trace w) (console w).
Definition emit (e : Event) (w : World) : World :=
  MkWorld (embeddingCache w) (pinecone w) (trace w ++ [e])%list (console w).
Definition logLine (line : string) (w : World) : World :=
  MkWorld (embeddingCache w) (pinecone w) (trace w) (console w ++ [line])%list.

(** ** Collaborators *)

(** [describeIndexStats()] resolves to an object whose [namespaces] field is
    optional; each present namespace carries a record count. *)
Record IndexStats := MkStats {
  namespaces : option (gmap string nat)
}.

(** [addDocuments] either stores every document or fails, possibly after
    having stored a prefix of them. *)
Inductive AddResult : Type :=
| Added
| AddFailed (error : JsError) (stored : nat).

(** A model stream: the fragments produced, then normal completion or an
    error. *)
Record StreamResult := MkStream {
  fragments : list string;
  failure : option JsError
}.

Record Env := MkEnv {
  (* platform; [newDate w i] is the clock as the i-th [new Date()] of a
     synchronous stretch of code reads it, the stretch starting in [w] *)
  dateNow : World -> Z;
  newDate : World -> nat -> Z;
  toISOString : Z -> string;
  numberToString : Z -> string;
  urlSearchParam : string -> string -> Outcome (option string);
  trim : string -> string;
  (* constructors that can throw *)
  newChatOpenAI : World -> string -> Outcome unit;
  newOpenAIEmbeddings : World -> string -> Outcome unit;
  newPineconeIndex : World -> Outcome unit;
  (* Pinecone *)
  describeIndexStats : World -> Outcome IndexStats;
  fromExistingIndex : World -> string -> Outcome unit;
  addDocuments : World -> string -> list Document -> AddResult;
  retrieverInvoke : World -> string -> string -> nat -> Outcome (list Document);
  (* transcript and chunking *)
  youtubeLoaderLoad : World -> string -> Outcome (list Document);
  splitText : nat -> nat -> list string -> string -> Outcome (list string);
  (* LangChain prompt and chain *)
  promptFromMessages : string -> string -> Outcome unit;
  chainStream : World -> string -> string -> Outcome StreamResult;
  (* dynamic import of youtube.js *)
  importYoutubeModule : World -> Outcome unit
}.

(** ** The state-and-error monad *)

Definition M (A : Type) : Type := World -> Outcome A * World.

Definition ret {A} (a : A) : M A := fun w => (Return a, w).
Definition throw {A} (e : JsError) : M A := fun w => (Throw e, w).
Definition bind {A B} (m : M A) (k : A -> M B) : M B :=
  fun w =>
    match m w with
    | (Return a, w') => k a w'
    | (Throw e, w') => (Throw e, w')
    end.

(** [try { body } catch (error) { handler }] *)
Definition tryCatch {A} (body : M A) (handler : JsError -> M A) : M A :=
  fun w =>
    match body w with
    | (Return a, w') => (Return a, w')
    | (Throw e, w') => handler e w'
    end.

Definition gets {A} (f : World -> A) : M A := fun w => (Return (f w), w).
Definition modify (f : World -> World) : M unit := fun w => (Return tt, f w).
(** An outgoing call: recorded first, then answered by the collaborator. *)
Definition call {A} (e : Event) (answer : World -> Outcome A) : M A :=
  fun w => let w' := emit e w in (answer w', w').

Declare Scope js_scope.
Delimit Scope js_scope with js.
Notation "x <- m ;; k" := (bind m (fun x => k))
  (at level 100, m at next level, right associativity) : js_scope.
Notation "m ;;; k" := (bind m (fun _ => k))
  (at level 100, right associativity) : js_scope.
Local Open Scope js_scope.

Section Pipeline.

Variable env : Env.

(** ** [namespaceExists] *)

(** [embeddingCache.has(namespace)] and the age test of the cached stamp. *)
Definition cacheFresh (namespace : string) (w : World) : bool :=
  match embeddingCache w !! namespace with
  | Some timestamp => bool_decide (dateNow env w - timestamp < cacheTTL DEFAULT_CONFIG)
  | None => false
  end.

(** [stats.namespaces && stats.namespaces[namespace] !== undefined] *)
Definition namespaceListed (stats : IndexStats) (namespace : string) : JsValue :=
  match namespaces stats with
  | None => JsUndefined
  | Some ns => JsBool (bool_decide (is_Some (ns !! namespace)))
  end.

Definition namespaceExists (namespace : string) : M JsValue :=
  tryCatch
    (fresh <- gets (cacheFresh namespace) ;;
     if (fresh : bool) then ret (JsBool true)
     else
       stats <- call DescribeIndexStats (describeIndexStats env) ;;
       let exists_ := namespaceListed stats namespace in
       (if truthy exists_
        then modify (fun w => setCache (<[namespace := dateNow env w]> (embeddingCache w)) w)
        else ret tt) ;;;
       ret exists_)
    (fun error =>
       modify (logLine ("Error checking namespace existence: " +:+ message error)) ;;;
       ret (JsBool false)).

(** ** [askYoutube]: transcript loading and chunking *)

Definition liftOutcome {A} (o : Outcome A) : M A := fun w => (o, w).

Definition updateCache (namespace : string) : M unit :=
  modify (fun w => setCache (<[namespace := dateNow env w]> (embeddingCache w)) w).

(** Step 3: the caller's transcript when there is one, else the loader. *)
Definition loadTranscript (videoUrl : string) (context : Context) : M (list Document) :=
  if truthyString (transcript context) then
    ret [MkDocument (default "" (transcript context)) [("source", MetaString videoUrl)]]
  else
    tryCatch
      (call (YoutubeLoaderLoad videoUrl) (fun w => youtubeLoaderLoad env w videoUrl))
      (fun e =>
         modify (logLine ("YoutubeLoader failed: " +:+ message e)) ;;;
         throw (MkError "Could not retrieve transcript. Please ensure the video has captions.")).

(** [!docs.length || !docs[0].pageContent.trim()] *)
Definition transcriptMissing (docs : list Document) : bool :=
  match docs with
  | [] => true
  | doc :: _ => String.eqb (trim env (pageContent doc)) ""
  end.

(** Step 4: the chunk documents, numbered in transcript order.  The
    callback of [map] reads the clock anew for every chunk. *)
Definition chunkDocuments (videoUrl videoId : string) (clock : nat -> Z)
    (textChunks : list string) : list Document :=
  imap (fun index chunk =>
          MkDocument chunk
            [("source", MetaString videoUrl);
             ("videoId", MetaString videoId);
             ("chunkIndex", MetaNumber index);
             ("timestamp", MetaString (toISOString env (clock index)))])
       textChunks.

(** ** [askYoutube]: writing to the store, with retries *)

(** What a write leaves in the namespace. *)
Definition storeAppend (namespace : string) (docs : list Document)
    (p : gmap string (list Document)) : gmap string (list Document) :=
  match docs with
  | [] => p
  | _ => <[namespace := (default [] (p !! namespace) ++ docs)%list]> p
  end.

(** [await vectorStore.addDocuments(documents)] *)
Definition vectorStoreAddDocuments (namespace : string) (documents : list Document) : M unit :=
  fun w =>
    let w1 := emit (AddDocuments namespace documents) w in
    match addDocuments env w1 namespace documents with
    | Added =>
        (Return tt, setPinecone (storeAppend namespace documents (pinecone w1)) w1)
    | AddFailed error stored =>
        (Throw error,
         setPinecone (storeAppend namespace (take stored documents) (pinecone w1)) w1)
    end.

(** [await setTimeout(ms)] from [timers/promises]. *)
Definition sleep (ms : Z) : M unit := call (SetTimeout ms) (fun _ => Return tt).

(** The [while (attempts < finalConfig.maxRetries)] loop of step 5.  Each
    turn of the loop that does not leave it increments [attempts], so
    [maxRetries] units of [fuel] are enough. *)
Fixpoint storeWithRetries (fuel : nat) (finalConfig : Config) (namespace : string)
    (documents : list Document) (attempts : nat) : M unit :=
  match fuel with
  | O => ret tt
  | S fuel =>
      if (attempts <? maxRetries finalConfig)%nat then
        tryCatch
          (vectorStoreAddDocuments namespace documents ;;;
           updateCache namespace ;;;
           sleep (retryDelay finalConfig))
          (fun error =>
             let attempts := S attempts in
             modify (logLine ("Pinecone add failed (attempt "
                              +:+ numberToString env (Z.of_nat attempts) +:+ "): "
                              +:+ message error)) ;;;
             if (attempts =? maxRetries finalConfig)%nat then throw error
             else
               sleep (retryDelay finalConfig * Z.of_nat attempts) ;;;
               storeWithRetries fuel finalConfig namespace documents attempts)
      else ret tt
  end.

(** Steps 3 to 5, the body of [if (!exists)]. *)
Definition ingest (videoUrl videoId namespace : string) (context : Context)
    (finalConfig : Config) : M unit :=
  modify (logLine ("Processing new video: " +:+ videoId)) ;;;
  docs <- loadTranscript videoUrl context ;;
  if transcriptMissing docs then throw (MkError "Transcript not found or is empty.")
  else
    let text := from_option pageContent "" (head docs) in
    textChunks <- call (SplitText text)
                    (fun _ => splitText env (chunkSize finalConfig) (chunkOverlap finalConfig)
                                separators text) ;;
    clock <- gets (newDate env) ;;
    let documents := chunkDocuments videoUrl videoId clock textChunks in
    call (FromExistingIndex namespace) (fun w => fromExistingIndex env w namespace) ;;;
    storeWithRetries (maxRetries finalConfig) finalConfig namespace documents 0.

(** ** [askYoutube]: retrieval and prompt *)

Definition dquote : string := String (ascii_of_nat 34) "".

Definition notFoundMessage : string :=
  "I couldn't find any relevant information in the video to answer your question.".

(** [results.map((doc) => `[Context Chunk]: ${doc.pageContent}`).join("\n\n")] *)
Definition promptContext (results : list Document) : string :=
  join (newline +:+ newline)
       (map (fun doc => "[Context Chunk]: " +:+ pageContent doc) results).

(** [context.timestamp ? Math.floor(context.timestamp) + "s" : "Start"] *)
Definition timestampText (context : Context) : string :=
  match timestamp context with
  | Some t =>
      if truthyNumber (Some t) then numberToString env (Qfloor t) +:+ "s" else "Start"
  | None => "Start"
  end.

Definition promptHead : string :=
  "You are an expert YouTube video assistant." +:+ newline +:+
  "    " +:+ newline +:+
  "    VIDEO CONTEXT:" +:+ newline.

Definition promptInstructions : string :=
  "    " +:+ newline +:+
  "    INSTRUCTIONS:" +:+ newline +:+
  "    1. Answer the user's question based STRICTLY on the provided video context chunks." +:+ newline +:+
  "    2. If the answer is not in the context, say " +:+ dquote +:+
       "I cannot find the answer in this video." +:+ dquote +:+ newline +:+
  "    3. Use a friendly, helpful tone." +:+ newline +:+
  "    4. If relevant, mention if the user is currently at a part of the video related to the topic (based on timestamp)." +:+ newline +:+
  "    5. Format your answer with Markdown." +:+ newline +:+
  "    6. CITE YOUR SOURCES: When using information, try to estimate the timestamp if possible (e.g., [05:30]) based on the context flow, or at least quote the specific phrase." +:+ newline +:+
  "    " +:+ newline +:+
  "    CONTEXT CHUNKS:" +:+ newline +:+
  "    ".

(** The template literal of step 7. *)
Definition systemPrompt (context : Context) (results : list Document) : string :=
  promptHead +:+
  "    Title: " +:+ orElse (title context) "Unknown" +:+ newline +:+
  "    Description: " +:+ orElse (description context) "None" +:+ newline +:+
  "    Current User Timestamp: " +:+ timestampText context +:+ newline +:+
  promptInstructions +:+
  promptContext results.

(** [Prompt.pipe(model).pipe(parser)]: the prompt messages and the model
    the chain will call. *)
Record Chain := MkChain {
  chainSystem : string;
  chainUser : string;
  chainModel : string;
  chainTemperature : Q
}.

(** [askYoutube] resolves to a plain string or to a chain to stream. *)
Inductive Answer : Type :=
| Literal (text : string)
| Streaming (chain : Chain).

(** Steps 6 to 8. *)
Definition retrieveAndCompose (query namespace : string) (context : Context)
    (finalConfig : Config) : M Answer :=
  call (FromExistingIndex namespace) (fun w => fromExistingIndex env w namespace) ;;;
  results <- call (RetrieverInvoke namespace query (topK finalConfig))
               (fun w => retrieverInvoke env w namespace query (topK finalConfig)) ;;
  match results with
  | [] => ret (Literal notFoundMessage)
  | _ =>
      let prompt := systemPrompt context results in
      call (PromptFromMessages prompt "{query}")
           (fun _ => promptFromMessages env prompt "{query}") ;;;
      call PipeChain (fun _ => Return tt) ;;;
      ret (Streaming (MkChain prompt "{query}" (modelName finalConfig)
                              (temperature finalConfig)))
  end.

(** Steps 1 and 2: the model, the embeddings and the index handle. *)
Definition initClients (finalConfig : Config) : M unit :=
  tryCatch
    (call (NewChatOpenAI (modelName finalConfig))
          (fun w => newChatOpenAI env w (modelName finalConfig)))
    (fun _ =>
       modify (logLine "OpenAI init failed, trying TogetherAI...") ;;;
       throw (MkError "Primary LLM failed and no fallback configured.")) ;;;
  call (NewOpenAIEmbeddings (embeddingModel finalConfig))
       (fun w => newOpenAIEmbeddings env w (embeddingModel finalConfig)) ;;;
  call NewPineconeIndex (newPineconeIndex env).

(** Everything after the video id has been found. *)
Definition pipeline (videoUrl videoId query : string) (context : Context)
    (finalConfig : Config) : M Answer :=
  initClients finalConfig ;;;
  let namespace := "yt-" +:+ videoId in
  exists_ <- namespaceExists namespace ;;
  (if negb (truthy exists_)
   then ingest videoUrl videoId namespace context finalConfig
   else ret tt) ;;;
  retrieveAndCompose query namespace context finalConfig.

Definition askYoutube (videoUrl query : string) (context : Context)
    (config : ConfigOverrides) : M Answer :=
  let finalConfig := mergeConfig DEFAULT_CONFIG config in
  videoId <- liftOutcome (urlSearchParam env videoUrl "v") ;;
  match videoId with
  | Some videoId =>
      if String.eqb videoId "" then
        throw (MkError "Invalid YouTube URL - no video ID found")
      else pipeline videoUrl videoId query context finalConfig
  | None => throw (MkError "Invalid YouTube URL - no video ID found")
  end.

End Pipeline.

(** ** The [POST /ask-youtube] route of [server.js] *)

(** What the handler puts on the wire: a serialized one-field JSON object
    ([res.json({k: v})], [JSON.stringify({k: v})]) or raw text. *)
Inductive BodyPart : Type :=
| JsonObject (key value : string)
| Text (s : string).

Record Response := MkResponse {
  statusCode : nat;
  headers : list (string * string);
  body : list BodyPart;
  headersSent : bool;
  finished : bool
}.

Definition freshResponse : Response := MkResponse 200 [] [] false false.

Definition status (code : nat) (res : Response) : Response :=
  MkResponse code (headers res) (body res) (headersSent res) (finished res).
Definition setHeader (name value : string) (res : Response) : Response :=
  MkResponse (statusCode res) (headers res ++ [(name, value)])%list (body res)
             (headersSent res) (finished res).
Definition write (part : BodyPart) (res : Response) : Response :=
  MkResponse (statusCode res) (headers res) (body res ++ [part])%list true (finished res).
Definition end_ (res : Response) : Response :=
  MkResponse (statusCode res) (headers res) (body res) true true.
Definition json (key value : string) (res : Response) : Response :=
  end_ (write (JsonObject key value) res).

(** [req.body], destructured by the handler. *)
Record RequestBody := MkRequest {
  r_videoUrl : option string;
  r_query : option string;
  r_title : option string;
  r_description : option string;
  r_timestamp : option Q;
  r_transcript : option string
}.

Section Server.

Variable env : Env.

(** The [catch (err)] block of the handler. *)
Definition respondError (err : JsError) (res : Response) (w : World) : Response * World :=
  let w := logLine ("askYoutube error: " +:+ message err) w in
  if negb (headersSent res) then
    (json "error" (if String.eqb (message err) "" then "Server error" else message err)
          (status 500 res), w)
  else
    (end_ (write (Text (newline +:+ newline +:+ "Error: " +:+ message err)) res), w).

(** [for await (const chunk of stream) res.write(chunk)] *)
Definition writeFragments (chunks : list string) (res : Response) : Response :=
  fold_left (fun r chunk => write (Text chunk) r) chunks res.

Definition postAskYoutube (req : RequestBody) (w : World) : Response * World :=
  if negb (truthyString (r_videoUrl req)) || negb (truthyString (r_query req)) then
    (json "error" "Missing videoUrl or query" (status 400 freshResponse), w)
  else
    let videoUrl := default "" (r_videoUrl req) in
    let query := default "" (r_query req) in
    let res := setHeader "Transfer-Encoding" "chunked"
                 (setHeader "Content-Type" "text/plain; charset=utf-8" freshResponse) in
    match call ImportYoutubeModule (importYoutubeModule env) w with
    | (Throw err, w1) => respondError err res w1
    | (Return _, w1) =>
        let context := MkContext (r_title req) (r_description req) (r_timestamp req)
                                 (r_transcript req) in
        match askYoutube env videoUrl query context noOverrides w1 with
        | (Throw err, w2) => respondError err res w2
        | (Return (Literal result), w2) =>
            (end_ (write (JsonObject "answer" result) res), w2)
        | (Return (Streaming chain), w2) =>
            match call (ChainStream query)
                       (fun w => chainStream env w (chainSystem chain) query) w2 with
            | (Throw err, w3) => respondError err res w3
            | (Return stream, w3) =>
                let res' := writeFragments (fragments stream) res in
                match failure stream with
                | None => (end_ res', w3)
                | Some err => respondError err res' w3
                end
            end
        end
    end.

(** The handler as Express calls it.  [req.body] is destructured before
    the [try]: when the body parser left no body, the handler throws there,
    before the request check, and writes no response itself. *)
Definition askYoutubeRoute (body : option RequestBody) (w : World)
  : Outcome Response * World :=
  match body with
  | None =>
      (Throw (MkError "Cannot destructure property 'videoUrl' of 'req.body' as it is undefined."),
       w)
  | Some req => let (res, w') := postAskYoutube req w in (Return res, w')
  end.

End Server.

(** ** A scripted environment for concrete runs *)

Module Fixture.

(** [new URL(u).searchParams.get("v")] for the two URL shapes the
    examples use: a watch URL carrying [v], and any other [https] URL. *)
Definition searchParam (url key : string) : Outcome (option string) :=
  let watch := "https://www.youtube.com/watch?v=" in
  if String.prefix watch url then
    Return (Some (String.substring (String.length watch)
                    (String.length url - String.length watch) url))
  else if String.prefix "https://" url then Return None
  else Throw (MkError "Invalid URL").

Definition countAdds (w : World) : nat :=
  length (List.filter isWrite (trace w)).

(** The clock starts at [t0] and every outgoing call takes a second. *)
Definition clock (t0 : Z) (w : World) : Z := t0 + 1000 * Z.of_nat (length (trace w)).

(** An environment in which the statistics query answers [stats], the
    n-th write answers [adds n] and every retrieval answers [found]. *)
Definition scripted (t0 : Z) (stats : Outcome IndexStats) (adds : nat -> AddResult)
    (found : list Document) : Env := {|
  dateNow := clock t0;
  newDate := fun w i => clock t0 w + Z.of_nat i;
  toISOString := decimal;
  numberToString := decimal;
  urlSearchParam := searchParam;
  trim := fun s => s;
  newChatOpenAI := fun _ _ => Return tt;
  newOpenAIEmbeddings := fun _ _ => Return tt;
  newPineconeIndex := fun _ => Return tt;
  describeIndexStats := fun _ => stats;
  fromExistingIndex := fun _ _ => Return tt;
  addDocuments := fun w _ _ => adds (countAdds w);
  retrieverInvoke := fun _ _ _ _ => Return found;
  youtubeLoaderLoad := fun _ _ => Throw (MkError "no captions");
  splitText := fun _ _ _ text => Return [text];
  promptFromMessages := fun _ _ => Return tt;
  chainStream := fun _ _ _ => Return (MkStream ["Hello"; " world"] None);
  importYoutubeModule := fun _ => Return tt
|}.

Definition emptyWorld : World := MkWorld ∅ ∅ [] [].

Definition rickUrl : string := "https://www.youtube.com/watch?v=dQw4w9WgXcQ".
Definition rickTranscript : string :=
  "We're no strangers to love. You know the rules and so do I.".
Definition rickContext : Context := {|
  title := Some "Rick Astley - Never Gonna Give You Up";
  description := Some "The official video for Never Gonna Give You Up by Rick Astley";
  timestamp := Some (10 # 1);
  transcript := Some rickTranscript
|}.
Definition rickChunk : Document :=
  MkDocument rickTranscript [("source", MetaString rickUrl)].

Definition noNamespaces : IndexStats := MkStats (Some ∅).
Definition rickIndexed : IndexStats := MkStats (Some {["yt-dQw4w9WgXcQ" := 1%nat]}).

End Fixture.

(** ** Concrete environments and worlds *)

(** The statistics query throws. *)
Definition storeDown : Env :=
  Fixture.scripted 5000 (Throw (MkError "connect ETIMEDOUT")) (fun _ => Added) [].

(** The statistics arrive without a [namespaces] field. *)
Definition statsWithoutNamespaces : Env :=
  Fixture.scripted 1000000000 (Return (MkStats None)) (fun _ => Added) [].

(** A record stamped at time 0, read when the clock shows 10^9 ms. *)
Definition staleWorld : World :=
  MkWorld {["yt-dQw4w9WgXcQ" := 0]} ∅ [] [].

(** The video is indexed and its cache record was written 5 seconds ago. *)
Definition cachedWorld : World :=
  MkWorld {["yt-dQw4w9WgXcQ" := 0]} {["yt-dQw4w9WgXcQ" := [Fixture.rickChunk]]} [] [].

Definition indexedEnv : Env :=
  Fixture.scripted 5000 (Return Fixture.rickIndexed) (fun _ => Added) [Fixture.rickChunk].

(** The video is indexed, but nothing in it matches the question. *)
Definition nothingFoundEnv : Env :=
  Fixture.scripted 5000 (Return Fixture.rickIndexed) (fun _ => Added) [].

(** The first two writes fail, the third goes through. *)
Definition flakyStore : Env :=
  Fixture.scripted 5000 (Return Fixture.noNamespaces)
    (fun n => if (n <? 3)%nat then AddFailed (MkError "503 Service Unavailable") 0
              else Added)
    [Fixture.rickChunk].

(** Every write fails. *)
Definition brokenStore : Env :=
  Fixture.scripted 5000 (Return Fixture.noNamespaces)
    (fun n => AddFailed (MkError ("write " +:+ decimal (Z.of_nat n) +:+ " failed")) 0)
    [Fixture.rickChunk].

(** The viewer is at the very start of the video. *)
Definition startContext : Context := {|
  title := Some "Intro";
  description := Some "A short clip";
  timestamp := Some (0 # 1);
  transcript := None
|}.

Definition helloChunk : Document := MkDocument "Hello world." [].

(** [e], except that the model's stream answers [stream]. *)
Definition withStream (stream : Outcome StreamResult) (e : Env) : Env := {|
  dateNow := dateNow e;
  newDate := newDate e;
  toISOString := toISOString e;
  numberToString := numberToString e;
  urlSearchParam := urlSearchParam e;
  trim := trim e;
  newChatOpenAI := newChatOpenAI e;
  newOpenAIEmbeddings := newOpenAIEmbeddings e;
  newPineconeIndex := newPineconeIndex e;
  describeIndexStats := describeIndexStats e;
  fromExistingIndex := fromExistingIndex e;
  addDocuments := addDocuments e;
  retrieverInvoke := retrieverInvoke e;
  youtubeLoaderLoad := youtubeLoaderLoad e;
  splitText := splitText e;
  promptFromMessages := promptFromMessages e;
  chainStream := fun _ _ _ => stream;
  importYoutubeModule := importYoutubeModule e
|}.

(** [e], except that the [ChatOpenAI] constructor answers [init]. *)
Definition withChatOpenAI (init : Outcome unit) (e : Env) : Env := {|
  dateNow := dateNow e;
  newDate := newDate e;
  toISOString := toISOString e;
  numberToString := numberToString e;
  urlSearchParam := urlSearchParam e;
  trim := trim e;
  newChatOpenAI := fun _ _ => init;
  newOpenAIEmbeddings := newOpenAIEmbeddings e;
  newPineconeIndex := newPineconeIndex e;
  describeIndexStats := describeIndexStats e;
  fromExistingIndex := fromExistingIndex e;
  addDocuments := addDocuments e;
  retrieverInvoke := retrieverInvoke e;
  youtubeLoaderLoad := youtubeLoaderLoad e;
  splitText := splitText e;
  promptFromMessages := promptFromMessages e;
  chainStream := chainStream e;
  importYoutubeModule := importYoutubeModule e
|}.

(** The model breaks off after two fragments. *)
Definition brokenStream : Env :=
  withStream (Return (MkStream ["Never"; " gonna"] (Some (MkError "socket hang up"))))
             indexedEnv.

(** No OpenAI key is configured. *)
Definition noApiKey : Env :=
  withChatOpenAI (Throw (MkError "OpenAI or Azure OpenAI API key not found")) indexedEnv.

(** A well-formed request about the test video. *)
Definition rickRequest : RequestBody := {|
  r_videoUrl := Some Fixture.rickUrl;
  r_query := Some "What is this video about?";
  r_title := title Fixture.rickContext;
  r_description := description Fixture.rickContext;
  r_timestamp := timestamp Fixture.rickContext;
  r_transcript := transcript Fixture.rickContext
|}.

(** A new video, with no transcript from the caller. *)
Definition bareContext : Context := MkContext None None None None.

(** The [config] argument that switches the write loop off. *)
Definition zeroRetries : ConfigOverrides :=
  MkOverrides None None None None None (Some 0%nat) None None None None.

(** [String.prototype.trim] on ASCII text. *)
Fixpoint dropSpaces (s : string) : string :=
  match s with
  | String c rest => if Ascii.is_space c then dropSpaces rest else s
  | EmptyString => EmptyString
  end.

Definition trimAscii (s : string) : string :=
  String.rev (dropSpaces (String.rev (dropSpaces s))).

(** [e], except that [trim] strips ASCII white space. *)
Definition withTrim (e : Env) : Env := {|
  dateNow := dateNow e;
  newDate := newDate e;
  toISOString := toISOString e;
  numberToString := numberToString e;
  urlSearchParam := urlSearchParam e;
  trim := trimAscii;
  newChatOpenAI := newChatOpenAI e;
  newOpenAIEmbeddings := newOpenAIEmbeddings e;
  newPineconeIndex := newPineconeIndex e;
  describeIndexStats := describeIndexStats e;
  fromExistingIndex := fromExistingIndex e;
  addDocuments := addDocuments e;
  retrieverInvoke := retrieverInvoke e;
  youtubeLoaderLoad := youtubeLoaderLoad e;
  splitText := splitText e;
  promptFromMessages := promptFromMessages e;
  chainStream := chainStream e;
  importYoutubeModule := importYoutubeModule e
|}.

(** The caller sent a transcript of blanks only. *)
Definition blankContext : Context := MkContext None None None (Some "   ").

(** * Vocabulary of the statements *)

(** Unfolds the monad's combinators so that a run becomes a [match] on
    the collaborators' answers. *)
Ltac run_js :=
  unfold bind, tryCatch, call, ret, throw, gets, modify, liftOutcome; simpl.

(** The run only appended events that satisfy [P]. *)
Definition emitted (P : Event -> bool) (w w' : World) : Prop :=
  exists evs, trace w' = (trace w ++ evs)%list /\ forallb P evs = true.

(** The run left the vector store as it was. *)
Definition sameStore (w w' : World) : Prop := pinecone w' = pinecone w.

(** Whatever the outcome, the worlds before and after are related. *)
Definition framed (R : World -> World -> Prop) {A} (m : M A) : Prop :=
  forall w, R w (snd (m w)).

(** The store is as it was and only events satisfying [P] were appended. *)
Definition quiet (P : Event -> bool) (w w' : World) : Prop :=
  sameStore w w' /\ emitted P w w'.

Definition notIngestion (e : Event) : bool := negb (isIngestion e).

(** The events that precede retrieval: neither the retrieval itself nor
    anything that touches the prompt or the chain. *)
Definition beforeRetrieval (e : Event) : bool :=
  negb (isModelUse e) && negb (isRetrieval e).

(** A run from [w] that ended with outcome [r] in [w'] used no prompt and
    no chain, returned nothing but the not-found message, and did return
    it if it got as far as the retrieval call. *)
Definition literalOnly (w : World) (r : Outcome Answer) (w' : World) : Prop :=
  exists evs,
    trace w' = (trace w ++ evs)%list /\
    forallb (fun e => negb (isModelUse e)) evs = true /\
    (forall answer, r = Return answer -> answer = Literal notFoundMessage) /\
    (existsb isRetrieval evs = true -> r = Return (Literal notFoundMessage)).

(** No video id: the URL does not parse, has no [v] parameter, or has an
    empty one. *)
Definition noVideoId (lookup : Outcome (option string)) : Prop :=
  match lookup with
  | Throw _ => True
  | Return None => True
  | Return (Some videoId) => videoId = ""
  end.

(** The response of the request check. *)
Definition missingFieldsResponse : Response :=
  json "error" "Missing videoUrl or query" (status 400 freshResponse).

(** [n] failed writes, the i-th followed by a wait of [delay * i]. *)
Definition failedAttempts (delay : Z) (namespace : string) (documents : list Document)
    (n : nat) : list Event :=
  flat_map (fun i => [AddDocuments namespace documents; SetTimeout (delay * Z.of_nat i)])
           (seq 1 n).

(** The world in which the collaborator receives a write issued in [w]. *)
Definition writeIssued (namespace : string) (documents : list Document) (w : World) : World :=
  emit (AddDocuments namespace documents) w.

(** The world a successful write leaves, before the cache is touched. *)
Definition writeDone (namespace : string) (documents : list Document) (w : World) : World :=
  setPinecone (storeAppend namespace documents
                 (pinecone (writeIssued namespace documents w)))
              (writeIssued namespace documents w).

(** The world the [catch] block leaves after the failure of attempt number
    [attempt], before it decides between rethrowing and waiting. *)
Definition writeFailed (env : Env) (namespace : string) (documents : list Document)
    (attempt : nat) (error : JsError) (stored : nat) (w : World) : World :=
  logLine ("Pinecone add failed (attempt " +:+ numberToString env (Z.of_nat attempt) +:+ "): "
           +:+ message error)
    (setPinecone (storeAppend namespace (take stored documents)
                    (pinecone (writeIssued namespace documents w)))
                 (writeIssued namespace documents w)).

(** Normalizes both sides of an equation between traces. *)
Ltac trace_eq :=
  repeat match goal with w := _ : World |- _ => subst w end;
  unfold writeDone, writeFailed, writeIssued, failedAttempts;
  simpl; rewrite <- ?app_assoc; simpl; reflexivity.

(** [sub] occurs in [s]. *)
Definition contains (s sub : string) : Prop :=
  exists before after, s = before +:+ sub +:+ after.

(** The same, as a test. *)
Fixpoint containsb (sub s : string) : bool :=
  String.prefix sub s ||
  match s with
  | EmptyString => false
  | String _ rest => containsb sub rest
  end.

(** What the prompt shows, line by line. *)
Definition promptShows (env : Env) (context : Context) (results : list Document)
    (prompt : string) : Prop :=
  (forall text, title context = Some text -> contains prompt ("Title: " +:+ text)) /\
  (forall text, description context = Some text ->
                contains prompt ("Description: " +:+ text)) /\
  match timestamp context with
  | Some t =>
      if Qeq_bool t 0
      then contains prompt "Current User Timestamp: Start"
      else contains prompt
             ("Current User Timestamp: " +:+ numberToString env (Qfloor t) +:+ "s")
  | None => contains prompt "Current User Timestamp: Start"
  end /\
  exists before,
    prompt = before +:+
             join (newline +:+ newline)
                  (map (fun doc => "[Context Chunk]: " +:+ pageContent doc) results).

(** ** Vocabulary of the further properties *)

(** The headers the route sets before it calls [askYoutube]. *)
Definition streamingHeaders : list (string * string) :=
  [("Content-Type", "text/plain; charset=utf-8"); ("Transfer-Encoding", "chunked")].

(** [err.message || "Server error"] *)
Definition errorText (err : JsError) : string :=
  if String.eqb (message err) "" then "Server error" else message err.

(** The mark the route appends to a stream that failed under way. *)
Definition errorMarker (err : JsError) : BodyPart :=
  Text (newline +:+ newline +:+ "Error: " +:+ message err).

(** The calls one request for [videoUrl] may make: the three constructors
    with the configured model names, the statistics query, the loader (on
    the request's URL, and only when the caller sent no transcript), the
    splitter, waits, store traffic under [namespace] only, one retrieval of
    [query] with the configured [topK], and the prompt and chain
    construction.  Never the module import or the model's stream. *)
Definition requestFootprint (videoUrl namespace query : string) (finalConfig : Config)
    (supplied : bool) (e : Event) : bool :=
  match e with
  | NewChatOpenAI model => String.eqb model (modelName finalConfig)
  | NewOpenAIEmbeddings model => String.eqb model (embeddingModel finalConfig)
  | NewPineconeIndex | DescribeIndexStats | PipeChain => true
  | YoutubeLoaderLoad url => negb supplied && String.eqb url videoUrl
  | SplitText _ | SetTimeout _ => true
  | FromExistingIndex ns | AddDocuments ns _ => String.eqb ns namespace
  | RetrieverInvoke ns q k =>
      String.eqb ns namespace && String.eqb q query && Nat.eqb k (topK finalConfig)
  | PromptFromMessages _ user => String.eqb user "{query}"
  | ImportYoutubeModule | ChainStream _ => false
  end.

(** The cache kept every record it had, and changed none but the one of
    [namespace]. *)
Definition cacheKept (namespace : string) (w w' : World) : Prop :=
  (forall k, k <> namespace -> embeddingCache w' !! k = embeddingCache w !! k) /\
  (forall k, is_Some (embeddingCache w !! k) -> is_Some (embeddingCache w' !! k)).

(** Nothing is written to the store. *)
Definition notWrite (e : Event) : bool := negb (isWrite e).

(** Neither the splitter nor the store is reached, and the cache and the
    store are as they were. *)
Definition stoppedBeforeSplit (w w' : World) : Prop :=
  sameStore w w' /\ embeddingCache w' = embeddingCache w /\
  emitted (fun e => match e with SplitText _ | AddDocuments _ _ => false | _ => true end)
          w w'.


(** The time a run spent in [setTimeout], in milliseconds. *)
Fixpoint waited (evs : list Event) : Z :=
  match evs with
  | [] => 0
  | SetTimeout ms :: rest => ms + waited rest
  | _ :: rest => waited rest
  end.

(** * Properties *)

Lemma bind_run {A B} (m : M A) (k : A -> M B) w :
  bind m k w =
    match m w with
    | (Return a, w') => k a w'
    | (Throw e, w') => (Throw e, w')
    end.
Proof. reflexivity. Qed.

(** ** Relations between the world before and after a run *)

Lemma emitted_refl P w : emitted P w w.
Proof. exists []. split; [by rewrite app_nil_r | done]. Qed.

Lemma emitted_trans P a b c : emitted P a b -> emitted P b c -> emitted P a c.
Proof.
  intros (e1 & H1 & F1) (e2 & H2 & F2). exists (e1 ++ e2)%list. split.
  - by rewrite H2, H1, <- app_assoc.
  - rewrite forallb_app, F1, F2. done.
Qed.

Lemma emitted_emit (P : Event -> bool) e w : P e = true -> emitted P w (emit e w).
Proof. intros H. exists [e]. simpl. by rewrite H. Qed.

Lemma emitted_same_trace P w w' : trace w' = trace w -> emitted P w w'.
Proof. intros H. exists []. by rewrite app_nil_r. Qed.

Lemma emitted_weaken (P Q : Event -> bool) w w' :
  (forall e, P e = true -> Q e = true) -> emitted P w w' -> emitted Q w w'.
Proof.
  intros HPQ (evs & Ht & Hf). exists evs. split; [done |].
  rewrite forallb_forall in *. auto.
Qed.

Section Frames.

Variable R : World -> World -> Prop.
Hypothesis R_refl : forall w, R w w.
Hypothesis R_trans : forall a b c, R a b -> R b c -> R a c.

Lemma framed_ret {A} (a : A) : framed R (ret a).
Proof. intros w. apply R_refl. Qed.

Lemma framed_throw {A} e : framed R (@throw A e).
Proof. intros w. apply R_refl. Qed.

Lemma framed_gets {A} (f : World -> A) : framed R (gets f).
Proof. intros w. apply R_refl. Qed.

Lemma framed_liftOutcome {A} (o : Outcome A) : framed R (liftOutcome o).
Proof. intros w. apply R_refl. Qed.

Lemma framed_modify f : (forall w, R w (f w)) -> framed R (modify f).
Proof. intros H w. apply H. Qed.

Lemma framed_call {A} e (answer : World -> Outcome A) :
  (forall w, R w (emit e w)) -> framed R (call e answer).
Proof. intros H w. apply H. Qed.

Lemma framed_bind {A B} (m : M A) (k : A -> M B) :
  framed R m -> (forall a, framed R (k a)) -> framed R (bind m k).
Proof.
  intros Hm Hk w. unfold bind. specialize (Hm w).
  destruct (m w) as [[a | e] w1]; simpl in *; [| done].
  eapply R_trans; [exact Hm | apply Hk].
Qed.

Lemma framed_tryCatch {A} (body : M A) (handler : JsError -> M A) :
  framed R body -> (forall e, framed R (handler e)) -> framed R (tryCatch body handler).
Proof.
  intros Hb Hh w. unfold tryCatch. specialize (Hb w).
  destruct (body w) as [[a | e] w1]; simpl in *; [done |].
  eapply R_trans; [exact Hb | apply Hh].
Qed.

Lemma framed_if {A} (b : bool) (m1 m2 : M A) :
  framed R m1 -> framed R m2 -> framed R (if b then m1 else m2).
Proof. by destruct b. Qed.

(** What the relation must allow for the phases that do not write to
    the store. *)
Hypothesis R_log : forall line w, R w (logLine line w).
Hypothesis R_cache : forall c w, R w (setCache c w).

Variable env : Env.

Lemma framed_namespaceExists namespace :
  (forall w, R w (emit DescribeIndexStats w)) ->
  framed R (namespaceExists env namespace).
Proof.
  intros He. unfold namespaceExists.
  apply framed_tryCatch.
  - apply framed_bind; [apply framed_gets |]. intros fresh.
    apply framed_if; [apply framed_ret |].
    apply framed_bind; [by apply framed_call |]. intros stats.
    apply framed_bind; [| intros; apply framed_ret].
    apply framed_if; [| apply framed_ret].
    apply framed_modify. intros w. apply R_cache.
  - intros e. apply framed_bind; [| intros; apply framed_ret].
    apply framed_modify. intros w. apply R_log.
Qed.

Lemma framed_initClients finalConfig :
  (forall w, R w (emit (NewChatOpenAI (modelName finalConfig)) w)) ->
  (forall w, R w (emit (NewOpenAIEmbeddings (embeddingModel finalConfig)) w)) ->
  (forall w, R w (emit NewPineconeIndex w)) ->
  framed R (initClients env finalConfig).
Proof.
  intros H1 H2 H3. unfold initClients.
  apply framed_bind.
  - apply framed_tryCatch; [by apply framed_call |].
    intros e. apply framed_bind; [| intros; apply framed_throw].
    apply framed_modify. intros w. apply R_log.
  - intros _. apply framed_bind; [by apply framed_call |].
    intros _. by apply framed_call.
Qed.

Lemma framed_retrieveAndCompose query namespace context finalConfig :
  (forall w, R w (emit (FromExistingIndex namespace) w)) ->
  (forall w, R w (emit (RetrieverInvoke namespace query (topK finalConfig)) w)) ->
  (forall p w, R w (emit (PromptFromMessages p "{query}") w)) ->
  (forall w, R w (emit PipeChain w)) ->
  framed R (retrieveAndCompose env query namespace context finalConfig).
Proof.
  intros H1 H2 H3 H4. unfold retrieveAndCompose.
  apply framed_bind; [by apply framed_call |]. intros _.
  apply framed_bind; [by apply framed_call |]. intros results.
  destruct results as [| doc rest]; [apply framed_ret |].
  apply framed_bind; [by apply framed_call |]. intros _.
  apply framed_bind; [by apply framed_call |]. intros _.
  apply framed_ret.
Qed.

End Frames.

(** ** The namespace cache *)

Section NamespaceCache.

Variable env : Env.

(** A run of [namespaceExists], branch by branch. *)
Lemma namespaceExists_run namespace w :
  namespaceExists env namespace w =
    if cacheFresh env namespace w then (Return (JsBool true), w)
    else
      let w1 := emit DescribeIndexStats w in
      match describeIndexStats env w1 with
      | Throw error =>
          (Return (JsBool false),
           logLine ("Error checking namespace existence: " +:+ message error) w1)
      | Return stats =>
          match namespaces stats with
          | None => (Return JsUndefined, w1)
          | Some listed =>
              if bool_decide (is_Some (listed !! namespace))
              then (Return (JsBool true),
                    setCache (<[namespace := dateNow env w1]> (embeddingCache w1)) w1)
              else (Return (JsBool false), w1)
          end
      end.
Proof.
  unfold namespaceExists. run_js.
  destruct (cacheFresh env namespace w); [done |].
  destruct (describeIndexStats env (emit DescribeIndexStats w)) as [stats | error];
    [| done].
  unfold namespaceListed.
  destruct (namespaces stats) as [listed |]; [| done].
  by destruct (bool_decide (is_Some (listed !! namespace))).
Qed.

(** The promise never rejects. *)
Lemma namespaceExists_never_throws namespace w :
  exists v, fst (namespaceExists env namespace w) = Return v.
Proof.
  rewrite namespaceExists_run.
  destruct (cacheFresh env namespace w); [by eexists |]. simpl.
  destruct (describeIndexStats env _) as [stats | error]; [| by eexists].
  destruct (namespaces stats) as [listed |]; [| by eexists].
  destruct (bool_decide _); by eexists.
Qed.

(** A fresh record (age below the 24-hour TTL) answers [true] and
    nothing leaves the process. *)
Lemma namespaceExists_fresh namespace w timestamp :
  embeddingCache w !! namespace = Some timestamp ->
  dateNow env w - timestamp < 24 * 60 * 60 * 1000 ->
  namespaceExists env namespace w = (Return (JsBool true), w).
Proof.
  intros Hc Hage. rewrite namespaceExists_run.
  unfold cacheFresh. rewrite Hc. simpl.
  by rewrite bool_decide_eq_true_2.
Qed.

(** No record, or one that has reached the TTL: the store is asked. *)
Lemma cacheFresh_false namespace w :
  (embeddingCache w !! namespace = None \/
   exists timestamp, embeddingCache w !! namespace = Some timestamp /\
                     24 * 60 * 60 * 1000 <= dateNow env w - timestamp) ->
  cacheFresh env namespace w = false.
Proof.
  unfold cacheFresh. intros [-> | (timestamp & -> & Hage)]; [done |].
  simpl. apply bool_decide_eq_false_2. lia.
Qed.

(** The store lists the namespace: the record is stamped with the
    current time and the answer is [true]. *)
Lemma namespaceExists_listed namespace w listed count :
  cacheFresh env namespace w = false ->
  describeIndexStats env (emit DescribeIndexStats w) = Return (MkStats (Some listed)) ->
  listed !! namespace = Some count ->
  namespaceExists env namespace w =
    (Return (JsBool true),
     setCache (<[namespace := dateNow env (emit DescribeIndexStats w)]> (embeddingCache w))
              (emit DescribeIndexStats w)).
Proof.
  intros Hf Hs Hl. rewrite namespaceExists_run, Hf. simpl. rewrite Hs. simpl.
  rewrite bool_decide_eq_true_2; [done | by rewrite Hl].
Qed.

(** The store answers with a namespace map that lacks the namespace:
    [false], cache untouched. *)
Lemma namespaceExists_not_listed namespace w listed :
  cacheFresh env namespace w = false ->
  describeIndexStats env (emit DescribeIndexStats w) = Return (MkStats (Some listed)) ->
  listed !! namespace = None ->
  namespaceExists env namespace w = (Return (JsBool false), emit DescribeIndexStats w).
Proof.
  intros Hf Hs Hl. rewrite namespaceExists_run, Hf. simpl. rewrite Hs. simpl.
  rewrite bool_decide_eq_false_2; [done |]. rewrite Hl. by intros [? ?].
Qed.

(** The store answers without a [namespaces] field: the guard
    [stats.namespaces && ...] hands that falsy field back. *)
Lemma namespaceExists_no_namespaces namespace w :
  cacheFresh env namespace w = false ->
  describeIndexStats env (emit DescribeIndexStats w) = Return (MkStats None) ->
  namespaceExists env namespace w = (Return JsUndefined, emit DescribeIndexStats w).
Proof.
  intros Hf Hs. rewrite namespaceExists_run, Hf. simpl. by rewrite Hs.
Qed.

(** A falsy answer never comes with a cache write. *)
Lemma namespaceExists_falsy_keeps_cache namespace w v w' :
  namespaceExists env namespace w = (Return v, w') ->
  truthy v = false ->
  embeddingCache w' = embeddingCache w.
Proof.
  rewrite namespaceExists_run.
  destruct (cacheFresh env namespace w).
  { intros [= <- <-]. done. }
  simpl. destruct (describeIndexStats env _) as [stats | error].
  - destruct (namespaces stats) as [listed |].
    + destruct (bool_decide _); intros [= <- <-]; done.
    + intros [= <- <-]. done.
  - intros [= <- <-]. done.
Qed.

(** A fresh record: no statistics query is issued. *)
Lemma namespaceExists_true_without_query namespace w :
  cacheFresh env namespace w = true ->
  namespaceExists env namespace w = (Return (JsBool true), w).
Proof. intros Hf. by rewrite namespaceExists_run, Hf. Qed.

(** C6. When the statistics query is issued and throws, [namespaceExists]
    swallows the error and resolves to [false] with the cache untouched,
    and [askYoutube] goes on with the ingestion phase exactly as for a
    video that is not indexed. *)
Theorem namespaceExists_store_failure namespace w error :
  cacheFresh env namespace w = false ->
  describeIndexStats env (emit DescribeIndexStats w) = Throw error ->
  let w' := logLine ("Error checking namespace existence: " +:+ message error)
                    (emit DescribeIndexStats w) in
  namespaceExists env namespace w = (Return (JsBool false), w') /\
  embeddingCache w' = embeddingCache w /\
  forall videoUrl videoId query context finalConfig w0,
    namespace = "yt-" +:+ videoId ->
    initClients env finalConfig w0 = (Return tt, w) ->
    pipeline env videoUrl videoId query context finalConfig w0
    = bind (ingest env videoUrl videoId namespace context finalConfig)
           (fun _ => retrieveAndCompose env query namespace context finalConfig) w'.
Proof.
  intros Hf Hs w'.
  assert (Hrun : namespaceExists env namespace w = (Return (JsBool false), w')).
  { rewrite namespaceExists_run, Hf. simpl. by rewrite Hs. }
  split; [exact Hrun |]. split; [done |].
  intros videoUrl videoId query context finalConfig w0 -> Hinit.
  unfold pipeline. unfold bind at 1. rewrite Hinit.
  unfold bind at 1. by rewrite Hrun.
Qed.

End NamespaceCache.

Lemma namespaceExists_store_failure_witness :
  namespaceExists storeDown "yt-dQw4w9WgXcQ" Fixture.emptyWorld
  = (Return (JsBool false),
     logLine "Error checking namespace existence: connect ETIMEDOUT"
             (emit DescribeIndexStats Fixture.emptyWorld)).
Proof.
  apply (namespaceExists_store_failure storeDown "yt-dQw4w9WgXcQ" Fixture.emptyWorld
           (MkError "connect ETIMEDOUT")); reflexivity.
Defined.

(** C5, at a namespace with no cache record and statistics that carry no
    [namespaces] field: the namespace is not present, yet the value
    resolved is [undefined] and not [false]. *)
Theorem namespaceExists_absent_record_undefined :
  namespaceExists statsWithoutNamespaces "yt-dQw4w9WgXcQ" Fixture.emptyWorld
  = (Return JsUndefined, emit DescribeIndexStats Fixture.emptyWorld).
Proof. reflexivity. Qed.

(** C9, at a namespace whose cache record has expired and statistics that
    carry no [namespaces] field: the promise resolves, but to a value that
    is not a boolean. *)
Theorem namespaceExists_not_boolean :
  exists v w',
    namespaceExists statsWithoutNamespaces "yt-dQw4w9WgXcQ" staleWorld = (Return v, w') /\
    (forall b, v <> JsBool b) /\
    embeddingCache w' = embeddingCache staleWorld.
Proof.
  exists JsUndefined, (emit DescribeIndexStats staleWorld).
  split; [| split; [intros b; discriminate | reflexivity]].
  apply namespaceExists_no_namespaces; reflexivity.
Qed.

(** ** Requests that are turned away *)

(** C7. When no video id can be extracted from [videoUrl], [askYoutube]
    throws at once and the world is exactly what it was: nothing was
    called, logged, cached or stored.  When the URL parses (it only lacks a
    usable [v]), the error is "Invalid YouTube URL - no video ID found". *)
Theorem askYoutube_invalid_url env videoUrl query context config w :
  noVideoId (urlSearchParam env videoUrl "v") ->
  exists error,
    askYoutube env videoUrl query context config w = (Throw error, w) /\
    (forall v, urlSearchParam env videoUrl "v" = Return v ->
               error = MkError "Invalid YouTube URL - no video ID found").
Proof.
  unfold noVideoId, askYoutube. run_js.
  destruct (urlSearchParam env videoUrl "v") as [[videoId |] | error]; intros H.
  - subst videoId. simpl. eexists. split; [reflexivity | done].
  - eexists. split; [reflexivity | done].
  - exists error. split; [reflexivity | intros v; discriminate].
Qed.

Lemma askYoutube_invalid_url_witness :
  exists error,
    askYoutube storeDown "https://www.youtube.com/playlist?list=PL123" "What is this?"
               Fixture.rickContext noOverrides Fixture.emptyWorld
    = (Throw error, Fixture.emptyWorld) /\
    (forall v, urlSearchParam storeDown "https://www.youtube.com/playlist?list=PL123" "v"
               = Return v ->
               error = MkError "Invalid YouTube URL - no video ID found").
Proof.
  apply (askYoutube_invalid_url storeDown "https://www.youtube.com/playlist?list=PL123").
  vm_compute. exact I.
Defined.

Example missingFieldsResponse_value :
  missingFieldsResponse
  = MkResponse 400 [] [JsonObject "error" "Missing videoUrl or query"] true true.
Proof. reflexivity. Qed.

(** A request without [videoUrl] or without [query] is answered by the
    request check. *)
Lemma postAskYoutube_rejects_missing env req w :
  r_videoUrl req = None \/ r_query req = None ->
  postAskYoutube env req w = (missingFieldsResponse, w).
Proof.
  unfold postAskYoutube. intros [-> | ->]; simpl; [done |].
  by rewrite orb_true_r.
Qed.

(** C10. A request whose [videoUrl] or [query] is the empty string gets the
    same 400 "Missing videoUrl or query" response as one that lacks the
    field, and the world is unchanged: [askYoutube] was not reached. *)
Theorem postAskYoutube_rejects_empty env req w :
  r_videoUrl req = Some "" \/ r_query req = Some "" ->
  postAskYoutube env req w = (missingFieldsResponse, w) /\
  statusCode missingFieldsResponse = 400%nat /\
  body missingFieldsResponse = [JsonObject "error" "Missing videoUrl or query"].
Proof.
  intros H. split; [| done].
  unfold postAskYoutube. destruct H as [-> | ->]; simpl; [done |].
  by rewrite orb_true_r.
Qed.

Lemma postAskYoutube_rejects_empty_witness :
  postAskYoutube storeDown
    (MkRequest (Some Fixture.rickUrl) (Some "") None None None None) Fixture.emptyWorld
  = (missingFieldsResponse, Fixture.emptyWorld).
Proof.
  apply (postAskYoutube_rejects_empty storeDown
           (MkRequest (Some Fixture.rickUrl) (Some "") None None None None)).
  right. reflexivity.
Defined.

(** ** The cache short-circuit *)

Lemma quiet_refl P w : quiet P w w.
Proof. split; [done | apply emitted_refl]. Qed.

Lemma quiet_trans P a b c : quiet P a b -> quiet P b c -> quiet P a c.
Proof.
  unfold quiet, sameStore. intros [S1 E1] [S2 E2]. split; [congruence |].
  by eapply emitted_trans.
Qed.

Lemma quiet_log P line w : quiet P w (logLine line w).
Proof. split; [done | by apply emitted_same_trace]. Qed.

Lemma quiet_cache P c w : quiet P w (setCache c w).
Proof. split; [done | by apply emitted_same_trace]. Qed.

Lemma quiet_emit (P : Event -> bool) e w : P e = true -> quiet P w (emit e w).
Proof. intros H. split; [done | by apply emitted_emit]. Qed.

Section ShortCircuit.

Variable env : Env.

Lemma initClients_quiet finalConfig w :
  quiet notIngestion w (snd (initClients env finalConfig w)).
Proof.
  apply (framed_initClients (quiet notIngestion)); auto using quiet_refl, quiet_log.
  - apply quiet_trans.
  - intros; by apply quiet_emit.
  - intros; by apply quiet_emit.
  - intros; by apply quiet_emit.
Qed.

Lemma namespaceExists_quiet namespace w :
  quiet notIngestion w (snd (namespaceExists env namespace w)).
Proof.
  apply (framed_namespaceExists (quiet notIngestion));
    auto using quiet_refl, quiet_log, quiet_cache.
  - apply quiet_trans.
  - intros; by apply quiet_emit.
Qed.

Lemma retrieveAndCompose_quiet query namespace context finalConfig w :
  quiet notIngestion w (snd (retrieveAndCompose env query namespace context finalConfig w)).
Proof.
  apply (framed_retrieveAndCompose (quiet notIngestion)); auto using quiet_refl.
  - apply quiet_trans.
  - intros; by apply quiet_emit.
  - intros; by apply quiet_emit.
  - intros; by apply quiet_emit.
  - intros; by apply quiet_emit.
Qed.

(** C4. When the existence check of a request answers [true], the run of
    [askYoutube] is the client set-up, the check, and then retrieval and
    composition: the ingestion phase is not entered.  Over the whole
    request the transcript loader, the splitter and the store write are
    never called, and the vector store holds what it held before. *)
Theorem askYoutube_skips_ingestion videoUrl videoId query context config w w1 w2 :
  urlSearchParam env videoUrl "v" = Return (Some videoId) ->
  videoId <> "" ->
  initClients env (mergeConfig DEFAULT_CONFIG config) w = (Return tt, w1) ->
  namespaceExists env ("yt-" +:+ videoId) w1 = (Return (JsBool true), w2) ->
  let run := askYoutube env videoUrl query context config w in
  run = retrieveAndCompose env query ("yt-" +:+ videoId) context
          (mergeConfig DEFAULT_CONFIG config) w2 /\
  pinecone (snd run) = pinecone w /\
  exists evs,
    trace (snd run) = (trace w ++ evs)%list /\
    forall e, In e evs ->
      match e with
      | YoutubeLoaderLoad _ | SplitText _ | AddDocuments _ _ => False
      | _ => True
      end.
Proof.
  intros Hurl Hid Hinit Hexists run.
  assert (Hrun : run = retrieveAndCompose env query ("yt-" +:+ videoId) context
                         (mergeConfig DEFAULT_CONFIG config) w2).
  { subst run. unfold askYoutube, liftOutcome. unfold bind at 1. rewrite Hurl.
    apply String.eqb_neq in Hid. rewrite Hid.
    unfold pipeline. unfold bind at 1. rewrite Hinit.
    unfold bind at 1. rewrite Hexists. simpl. reflexivity. }
  split; [exact Hrun |].
  assert (Hq : quiet notIngestion w (snd run)).
  { rewrite Hrun.
    apply quiet_trans with w1.
    { pose proof (initClients_quiet (mergeConfig DEFAULT_CONFIG config) w) as H.
      by rewrite Hinit in H. }
    apply quiet_trans with w2.
    { pose proof (namespaceExists_quiet ("yt-" +:+ videoId) w1) as H.
      by rewrite Hexists in H. }
    apply retrieveAndCompose_quiet. }
  destruct Hq as [Hstore (evs & Htrace & Hall)].
  split; [exact Hstore |].
  exists evs. split; [exact Htrace |].
  intros e He. rewrite forallb_forall in Hall. specialize (Hall e He).
  by destruct e.
Qed.

End ShortCircuit.

Lemma askYoutube_skips_ingestion_witness :
  pinecone (snd (askYoutube indexedEnv Fixture.rickUrl "What is this video about?"
                            Fixture.rickContext noOverrides cachedWorld))
  = pinecone cachedWorld.
Proof.
  eapply (askYoutube_skips_ingestion indexedEnv Fixture.rickUrl "dQw4w9WgXcQ").
  - reflexivity.
  - discriminate.
  - reflexivity.
  - vm_compute. reflexivity.
Defined.

(** ** The ingestion phase, framed *)

Section IngestFrames.

Variable R : World -> World -> Prop.
Hypothesis R_refl : forall w, R w w.
Hypothesis R_trans : forall a b c, R a b -> R b c -> R a c.
Hypothesis R_log : forall line w, R w (logLine line w).
Hypothesis R_cache : forall c w, R w (setCache c w).
Hypothesis R_store : forall p w, R w (setPinecone p w).
Hypothesis R_ingest_events :
  forall e w,
    match e with
    | YoutubeLoaderLoad _ | SplitText _ | FromExistingIndex _
    | AddDocuments _ _ | SetTimeout _ => R w (emit e w)
    | _ => True
    end.

Variable env : Env.

Lemma framed_vectorStoreAddDocuments namespace documents :
  framed R (vectorStoreAddDocuments env namespace documents).
Proof.
  intros w. unfold vectorStoreAddDocuments.
  pose proof (R_ingest_events (AddDocuments namespace documents) w) as He.
  destruct (addDocuments env _ namespace documents); simpl;
    (eapply R_trans; [exact He | apply R_store]).
Qed.

Lemma framed_sleep ms : framed R (sleep ms).
Proof. apply framed_call. intros w. apply (R_ingest_events (SetTimeout ms)). Qed.

Lemma framed_storeWithRetries fuel finalConfig namespace documents attempts :
  framed R (storeWithRetries env fuel finalConfig namespace documents attempts).
Proof.
  revert attempts. induction fuel as [| fuel IH]; intros attempts; simpl.
  { by apply framed_ret. }
  apply framed_if; [| by apply framed_ret].
  apply framed_tryCatch; [done | |].
  - apply framed_bind; [done | apply framed_vectorStoreAddDocuments |].
    intros _. apply framed_bind; [done | | intros _; apply framed_sleep].
    apply framed_modify. intros w. apply R_cache.
  - intros error. apply framed_bind; [done | |].
    + apply framed_modify. intros w. apply R_log.
    + intros _. apply framed_if; [by apply framed_throw |].
      apply framed_bind; [done | apply framed_sleep | intros _; apply IH].
Qed.

Lemma framed_loadTranscript videoUrl context :
  framed R (loadTranscript env videoUrl context).
Proof.
  unfold loadTranscript. apply framed_if; [by apply framed_ret |].
  apply framed_tryCatch; [done | |].
  - apply framed_call. intros w. apply (R_ingest_events (YoutubeLoaderLoad videoUrl)).
  - intros e. apply framed_bind; [done | | intros _; by apply framed_throw].
    apply framed_modify. intros w. apply R_log.
Qed.

Lemma framed_ingest videoUrl videoId namespace context finalConfig :
  framed R (ingest env videoUrl videoId namespace context finalConfig).
Proof.
  unfold ingest.
  apply framed_bind; [done | |].
  { apply framed_modify. intros w. apply R_log. }
  intros _. apply framed_bind; [done | apply framed_loadTranscript |].
  intros docs. apply framed_if; [by apply framed_throw |].
  apply framed_bind; [done | |].
  { apply framed_call. intros w. apply (R_ingest_events (SplitText _)). }
  intros textChunks. apply framed_bind; [done | by apply framed_gets |].
  intros clock. apply framed_bind; [done | |].
  { apply framed_call. intros w. apply (R_ingest_events (FromExistingIndex namespace)). }
  intros _. apply framed_storeWithRetries.
Qed.

End IngestFrames.

(** ** Empty retrieval *)

(** [askYoutube] up to the point where the video id is known. *)
Lemma askYoutube_run env videoUrl query context config w :
  askYoutube env videoUrl query context config w =
    match urlSearchParam env videoUrl "v" with
    | Return (Some videoId) =>
        if String.eqb videoId "" then
          (Throw (MkError "Invalid YouTube URL - no video ID found"), w)
        else pipeline env videoUrl videoId query context
               (mergeConfig DEFAULT_CONFIG config) w
    | Return None => (Throw (MkError "Invalid YouTube URL - no video ID found"), w)
    | Throw error => (Throw error, w)
    end.
Proof.
  unfold askYoutube, liftOutcome, bind, throw.
  destruct (urlSearchParam env videoUrl "v") as [[videoId |] | error]; try done.
  by destruct (String.eqb videoId "").
Qed.

Section EmptyRetrieval.

Variable env : Env.
Variable query : string.

Lemma literalOnly_after w w1 r w' :
  emitted beforeRetrieval w w1 -> literalOnly w1 r w' -> literalOnly w r w'.
Proof.
  intros (e1 & H1 & F1) (e2 & H2 & F2 & Hret & Hreach).
  exists (e1 ++ e2)%list. split; [by rewrite H2, H1, <- app_assoc |].
  rewrite forallb_forall in F1.
  split; [| split; [exact Hret |]].
  - rewrite forallb_app, F2, andb_true_r. apply forallb_forall.
    intros e He. specialize (F1 e He). unfold beforeRetrieval in F1.
    by apply andb_true_iff in F1 as [? _].
  - rewrite existsb_app. intros [Hx | Hx]%orb_true_iff; [| by apply Hreach].
    apply existsb_exists in Hx as (e & He & Hr). specialize (F1 e He).
    unfold beforeRetrieval in F1. rewrite Hr in F1. simpl in F1.
    by rewrite andb_false_r in F1.
Qed.

Lemma literalOnly_throw w error w' :
  emitted beforeRetrieval w w' -> literalOnly w (Throw error) w'.
Proof.
  intros H. apply literalOnly_after with w'; [exact H |].
  exists []. rewrite app_nil_r. repeat split; try done.
Qed.

Lemma beforeRetrieval_log line w : emitted beforeRetrieval w (logLine line w).
Proof. by apply emitted_same_trace. Qed.

Lemma beforeRetrieval_cache c w : emitted beforeRetrieval w (setCache c w).
Proof. by apply emitted_same_trace. Qed.

Lemma beforeRetrieval_store p w : emitted beforeRetrieval w (setPinecone p w).
Proof. by apply emitted_same_trace. Qed.

Lemma initClients_before finalConfig w :
  emitted beforeRetrieval w (snd (initClients env finalConfig w)).
Proof.
  apply (framed_initClients (emitted beforeRetrieval));
    auto using emitted_refl, beforeRetrieval_log.
  - apply emitted_trans.
  - intros; by apply emitted_emit.
  - intros; by apply emitted_emit.
  - intros; by apply emitted_emit.
Qed.

Lemma namespaceExists_before namespace w :
  emitted beforeRetrieval w (snd (namespaceExists env namespace w)).
Proof.
  apply (framed_namespaceExists (emitted beforeRetrieval));
    auto using emitted_refl, beforeRetrieval_log, beforeRetrieval_cache.
  - apply emitted_trans.
  - intros; by apply emitted_emit.
Qed.

Lemma ingest_before videoUrl videoId namespace context finalConfig w :
  emitted beforeRetrieval w
    (snd (ingest env videoUrl videoId namespace context finalConfig w)).
Proof.
  apply (framed_ingest (emitted beforeRetrieval));
    auto using emitted_refl, beforeRetrieval_log, beforeRetrieval_cache,
               beforeRetrieval_store.
  - apply emitted_trans.
  - intros e w0. destruct e; try exact I; by apply emitted_emit.
Qed.

Hypothesis nothing_found :
  forall w namespace k, retrieverInvoke env w namespace query k = Return [].

Lemma retrieveAndCompose_nothing_found namespace context finalConfig w :
  let run := retrieveAndCompose env query namespace context finalConfig w in
  literalOnly w (fst run) (snd run).
Proof.
  unfold retrieveAndCompose. run_js.
  destruct (fromExistingIndex env _ namespace) as [[] | error]; simpl.
  - rewrite nothing_found. simpl.
    exists [FromExistingIndex namespace; RetrieverInvoke namespace query (topK finalConfig)].
    split; [simpl; by rewrite <- app_assoc |]. repeat split; try done.
    by intros answer [= <-].
  - exists [FromExistingIndex namespace]. repeat split; try done.
Qed.

(** Under [nothing_found], every run of [askYoutube] is [literalOnly]. *)
Lemma askYoutube_literalOnly videoUrl context config w :
  let run := askYoutube env videoUrl query context config w in
  literalOnly w (fst run) (snd run).
Proof.
  intros run. subst run. rewrite askYoutube_run.
  destruct (urlSearchParam env videoUrl "v") as [[videoId |] | error]; simpl;
    try (apply literalOnly_throw, emitted_refl).
  destruct (String.eqb videoId ""); simpl;
    [apply literalOnly_throw, emitted_refl |].
  unfold pipeline. rewrite bind_run.
  pose proof (initClients_before (mergeConfig DEFAULT_CONFIG config) w) as H1.
  destruct (initClients env _ w) as [[[] | error] w1]; simpl in H1 |- *;
    [| by apply literalOnly_throw].
  apply literalOnly_after with w1; [exact H1 |]. clear H1.
  rewrite bind_run.
  pose proof (namespaceExists_before ("yt-" +:+ videoId) w1) as H2.
  destruct (namespaceExists env _ w1) as [[exists_ | error] w2]; simpl in H2 |- *;
    [| by apply literalOnly_throw].
  apply literalOnly_after with w2; [exact H2 |]. clear H2.
  rewrite bind_run.
  destruct (negb (truthy exists_)).
  - pose proof (ingest_before videoUrl videoId ("yt-" +:+ videoId) context
                  (mergeConfig DEFAULT_CONFIG config) w2) as H3.
    destruct (ingest env _ _ _ _ _ w2) as [[[] | error] w3]; simpl in H3 |- *;
      [| by apply literalOnly_throw].
    apply literalOnly_after with w3; [exact H3 |].
    apply retrieveAndCompose_nothing_found.
  - simpl. apply retrieveAndCompose_nothing_found.
Qed.

(** If every retrieval for [query] comes back empty, a run of [askYoutube]
    builds no prompt and no chain, and whatever it returns is the literal
    not-found message. *)
Lemma askYoutube_literal_or_throw videoUrl context config w :
  let run := askYoutube env videoUrl query context config w in
  exists evs,
    trace (snd run) = (trace w ++ evs)%list /\
    (forall e, In e evs ->
       match e with
       | PromptFromMessages _ _ | PipeChain | ChainStream _ => False
       | _ => True
       end) /\
    (forall answer, fst run = Return answer -> answer = Literal notFoundMessage).
Proof.
  intros run.
  destruct (askYoutube_literalOnly videoUrl context config w)
    as (evs & Htrace & Hquiet & Hret & Hreach).
  exists evs. split; [exact Htrace |]. split; [| exact Hret].
  intros e He. rewrite forallb_forall in Hquiet. specialize (Hquiet e He).
  by destruct e.
Qed.

End EmptyRetrieval.

Example askYoutube_nothing_found_run :
  askYoutube nothingFoundEnv Fixture.rickUrl "Who wrote the song?" Fixture.rickContext
             noOverrides cachedWorld
  = (Return (Literal notFoundMessage),
     MkWorld {["yt-dQw4w9WgXcQ" := 0]} {["yt-dQw4w9WgXcQ" := [Fixture.rickChunk]]}
       [NewChatOpenAI "gpt-3.5-turbo"; NewOpenAIEmbeddings "text-embedding-3-small";
        NewPineconeIndex; FromExistingIndex "yt-dQw4w9WgXcQ";
        RetrieverInvoke "yt-dQw4w9WgXcQ" "Who wrote the song?" 6]
       []).
Proof. vm_compute. reflexivity. Qed.



(** ** The retry loop of the store write *)

Section Retries.

Variable env : Env.
Variable finalConfig : Config.
Variable namespace : string.
Variable documents : list Document.

(** One turn of the loop. *)
Lemma storeWithRetries_step fuel attempts w :
  (attempts < maxRetries finalConfig)%nat ->
  storeWithRetries env (S fuel) finalConfig namespace documents attempts w =
    match addDocuments env (writeIssued namespace documents w) namespace documents with
    | Added =>
        (Return tt,
         emit (SetTimeout (retryDelay finalConfig))
              (setCache (<[namespace := dateNow env (writeDone namespace documents w)]>
                           (embeddingCache (writeDone namespace documents w)))
                        (writeDone namespace documents w)))
    | AddFailed error stored =>
        if (S attempts =? maxRetries finalConfig)%nat
        then (Throw error, writeFailed env namespace documents (S attempts) error stored w)
        else storeWithRetries env fuel finalConfig namespace documents (S attempts)
               (emit (SetTimeout (retryDelay finalConfig * Z.of_nat (S attempts)))
                     (writeFailed env namespace documents (S attempts) error stored w))
    end.
Proof.
  intros Hlt. apply Nat.ltb_lt in Hlt.
  cbn [storeWithRetries]. rewrite Hlt.
  unfold tryCatch, bind at 1 2, vectorStoreAddDocuments, writeDone, writeFailed, writeIssued.
  destruct (addDocuments env _ namespace documents) as [| error stored].
  - reflexivity.
  - unfold bind at 1, modify.
    destruct (S attempts =? maxRetries finalConfig)%nat; [reflexivity |].
    unfold bind at 1, sleep, call. reflexivity.
Qed.

(** Once [attempts] has reached [maxRetries] the loop is over. *)
Lemma storeWithRetries_done fuel attempts w :
  (maxRetries finalConfig <= attempts)%nat ->
  storeWithRetries env fuel finalConfig namespace documents attempts w = (Return tt, w).
Proof.
  intros Hge. destruct fuel as [| fuel]; [reflexivity |].
  cbn [storeWithRetries].
  by rewrite (proj2 (Nat.ltb_ge attempts (maxRetries finalConfig)) Hge).
Qed.

(** The fuel handed to the loop never runs out before the loop condition
    fails: any larger amount gives the same run. *)
Lemma storeWithRetries_fuel fuel attempts w :
  (maxRetries finalConfig - attempts <= fuel)%nat ->
  storeWithRetries env fuel finalConfig namespace documents attempts w =
  storeWithRetries env (maxRetries finalConfig - attempts) finalConfig namespace documents
                   attempts w.
Proof.
  revert attempts w. induction fuel as [| fuel IH]; intros attempts w Hfuel.
  { by replace (maxRetries finalConfig - attempts)%nat with 0%nat by lia. }
  destruct (Nat.lt_ge_cases attempts (maxRetries finalConfig)) as [Hlt | Hge].
  - replace (maxRetries finalConfig - attempts)%nat
      with (S (maxRetries finalConfig - S attempts)) by lia.
    rewrite !storeWithRetries_step by done.
    destruct (addDocuments env _ namespace documents) as [| error stored]; [done |].
    destruct (S attempts =? maxRetries finalConfig)%nat; [done |].
    apply IH. lia.
  - by rewrite !storeWithRetries_done.
Qed.

(** Whatever the configuration, the loop writes at most
    [maxRetries - attempts] times. *)
Lemma storeWithRetries_write_bound fuel attempts w :
  exists evs,
    trace (snd (storeWithRetries env fuel finalConfig namespace documents attempts w))
    = (trace w ++ evs)%list /\
    (length (List.filter isWrite evs) <= maxRetries finalConfig - attempts)%nat.
Proof.
  revert attempts w. induction fuel as [| fuel IH]; intros attempts w.
  { exists []. simpl. rewrite app_nil_r. split; [done | lia]. }
  destruct (Nat.lt_ge_cases attempts (maxRetries finalConfig)) as [Hlt | Hge].
  - rewrite storeWithRetries_step by done.
    destruct (addDocuments env _ namespace documents) as [| error stored].
    + exists [AddDocuments namespace documents; SetTimeout (retryDelay finalConfig)].
      simpl. rewrite <- app_assoc. split; [done | lia].
    + destruct (S attempts =? maxRetries finalConfig)%nat.
      * exists [AddDocuments namespace documents]. simpl. split; [done | lia].
      * destruct (IH (S attempts)
                     (emit (SetTimeout (retryDelay finalConfig * Z.of_nat (S attempts)))
                           (writeFailed env namespace documents (S attempts) error stored w)))
          as (evs & Ht & Hn).
        exists ([AddDocuments namespace documents;
                 SetTimeout (retryDelay finalConfig * Z.of_nat (S attempts))] ++ evs)%list.
        split.
        { rewrite Ht. simpl. by rewrite <- !app_assoc. }
        simpl. lia.
  - rewrite storeWithRetries_done by done.
    exists []. rewrite app_nil_r. split; [done | simpl; lia].
Qed.

End Retries.

Section RetryPolicy.

Variable env : Env.
Variable finalConfig : Config.
Variable namespace : string.
Variable documents : list Document.

(** C2. With [maxRetries] = 3, the loop of step 5 writes at most three
    times.  Its events are n failed writes (n < 3), the i-th followed by a
    wait of [retryDelay * i], and then either a write that succeeds, after
    which the cache record of the namespace is stamped and the loop ends
    normally, or, when n = 2, a third failed write, whose error is thrown
    to the caller with the cache exactly as it was before the loop. *)
Theorem storeWithRetries_three_attempts w :
  maxRetries finalConfig = 3%nat ->
  let run := storeWithRetries env (maxRetries finalConfig) finalConfig namespace documents 0 w in
  let delay := retryDelay finalConfig in
  exists evs,
    trace (snd run) = (trace w ++ evs)%list /\
    (length (List.filter isWrite evs) <= 3)%nat /\
    match fst run with
    | Return _ =>
        exists n wOk,
          (n < 3)%nat /\
          evs = (failedAttempts delay namespace documents n
                 ++ [AddDocuments namespace documents; SetTimeout delay])%list /\
          trace wOk = (trace w ++ failedAttempts delay namespace documents n
                       ++ [AddDocuments namespace documents])%list /\
          addDocuments env wOk namespace documents = Added /\
          exists wSet,
            trace wSet = trace wOk /\
            embeddingCache (snd run) = <[namespace := dateNow env wSet]> (embeddingCache w)
    | Throw error =>
        evs = (failedAttempts delay namespace documents 2
               ++ [AddDocuments namespace documents])%list /\
        embeddingCache (snd run) = embeddingCache w /\
        exists w3 stored,
          trace w3 = (trace w ++ evs)%list /\
          addDocuments env w3 namespace documents = AddFailed error stored
    end.
Proof.
  intros Hmax run delay. subst run delay. rewrite Hmax.
  (* first attempt *)
  rewrite storeWithRetries_step by lia. rewrite Hmax.
  destruct (addDocuments env (writeIssued namespace documents w) namespace documents)
    as [| e1 s1] eqn:A1.
  { exists [AddDocuments namespace documents; SetTimeout (retryDelay finalConfig)].
    split; [trace_eq |]. split; [simpl; lia |].
    exists 0%nat, (writeIssued namespace documents w).
    repeat split; try done; try lia.
    by exists (writeDone namespace documents w). }
  set (w1 := emit (SetTimeout (retryDelay finalConfig * Z.of_nat 1)) (writeFailed env namespace documents 1 e1 s1 w)).
  change (3 =? 3)%nat with true. change (1 =? 3)%nat with false. cbv iota.
  (* second attempt *)
  rewrite storeWithRetries_step by lia. rewrite Hmax.
  assert (T1 : trace (writeIssued namespace documents w1)
               = (trace w ++ failedAttempts (retryDelay finalConfig) namespace documents 1
                  ++ [AddDocuments namespace documents])%list).
  { trace_eq. }
  destruct (addDocuments env (writeIssued namespace documents w1) namespace documents)
    as [| e2 s2] eqn:A2.
  { exists (failedAttempts (retryDelay finalConfig) namespace documents 1
            ++ [AddDocuments namespace documents; SetTimeout (retryDelay finalConfig)])%list.
    split; [trace_eq |]. split; [simpl; lia |].
    exists 1%nat, (writeIssued namespace documents w1).
    repeat split; try done; try lia.
    by exists (writeDone namespace documents w1). }
  set (w2 := emit (SetTimeout (retryDelay finalConfig * Z.of_nat 2)) (writeFailed env namespace documents 2 e2 s2 w1)).
  change (2 =? 3)%nat with false. cbv iota.
  (* third attempt *)
  rewrite storeWithRetries_step by lia. rewrite Hmax.
  assert (T2 : trace (writeIssued namespace documents w2)
               = (trace w ++ failedAttempts (retryDelay finalConfig) namespace documents 2
                  ++ [AddDocuments namespace documents])%list).
  { trace_eq. }
  destruct (addDocuments env (writeIssued namespace documents w2) namespace documents)
    as [| e3 s3] eqn:A3.
  { exists (failedAttempts (retryDelay finalConfig) namespace documents 2
            ++ [AddDocuments namespace documents; SetTimeout (retryDelay finalConfig)])%list.
    split; [trace_eq |]. split; [simpl; lia |].
    exists 2%nat, (writeIssued namespace documents w2).
    repeat split; try done; try lia.
    by exists (writeDone namespace documents w2). }
  change (3 =? 3)%nat with true. cbv iota.
  exists (failedAttempts (retryDelay finalConfig) namespace documents 2
          ++ [AddDocuments namespace documents])%list.
  split; [trace_eq |]. split; [simpl; lia |].
  split; [done |]. split; [done |].
  exists (writeIssued namespace documents w2), s3. split; [exact T2 | exact A3].
Qed.

End RetryPolicy.

Example storeWithRetries_third_time_lucky :
  let run := storeWithRetries flakyStore 3 DEFAULT_CONFIG "yt-dQw4w9WgXcQ"
               [Fixture.rickChunk] 0 Fixture.emptyWorld in
  fst run = Return tt /\
  trace (snd run)
  = [AddDocuments "yt-dQw4w9WgXcQ" [Fixture.rickChunk]; SetTimeout 2000;
     AddDocuments "yt-dQw4w9WgXcQ" [Fixture.rickChunk]; SetTimeout 4000;
     AddDocuments "yt-dQw4w9WgXcQ" [Fixture.rickChunk]; SetTimeout 2000] /\
  embeddingCache (snd run) !! "yt-dQw4w9WgXcQ" = Some 10000.
Proof. vm_compute. done. Qed.

Example storeWithRetries_gives_up :
  let run := storeWithRetries brokenStore 3 DEFAULT_CONFIG "yt-dQw4w9WgXcQ"
               [Fixture.rickChunk] 0 Fixture.emptyWorld in
  fst run = Throw (MkError "write 3 failed") /\
  trace (snd run)
  = [AddDocuments "yt-dQw4w9WgXcQ" [Fixture.rickChunk]; SetTimeout 2000;
     AddDocuments "yt-dQw4w9WgXcQ" [Fixture.rickChunk]; SetTimeout 4000;
     AddDocuments "yt-dQw4w9WgXcQ" [Fixture.rickChunk]] /\
  embeddingCache (snd run) = ∅.
Proof. vm_compute. done. Qed.

Lemma storeWithRetries_three_attempts_witness :
  exists evs,
    trace (snd (storeWithRetries brokenStore 3 DEFAULT_CONFIG "yt-dQw4w9WgXcQ"
                  [Fixture.rickChunk] 0 Fixture.emptyWorld))
    = (trace Fixture.emptyWorld ++ evs)%list /\
    (length (List.filter isWrite evs) <= 3)%nat.
Proof.
  destruct (storeWithRetries_three_attempts brokenStore DEFAULT_CONFIG "yt-dQw4w9WgXcQ"
              [Fixture.rickChunk] Fixture.emptyWorld eq_refl) as (evs & Ht & Hn & _).
  exists evs. split; [exact Ht | exact Hn].
Defined.

(** ** The system prompt *)

Lemma append_assoc (a b c : string) : (a +:+ b) +:+ c = a +:+ b +:+ c.
Proof.
  induction a as [| x a IH]; [done |].
  change (String x ((a +:+ b) +:+ c) = String x (a +:+ b +:+ c)). by rewrite IH.
Qed.

Lemma append_empty_r (a : string) : a +:+ "" = a.
Proof.
  induction a as [| x a IH]; [done |].
  change (String x (a +:+ "") = String x a). by rewrite IH.
Qed.

Lemma prefix_append (sub rest : string) : String.prefix sub (sub +:+ rest) = true.
Proof.
  induction sub as [| x sub IH]; [by destruct rest |].
  change (String x sub +:+ rest) with (String x (sub +:+ rest)). cbn [String.prefix].
  destruct (ascii_dec x x); [exact IH | done].
Qed.

Lemma contains_containsb s sub : contains s sub -> containsb sub s = true.
Proof.
  intros (before & after & ->).
  induction before as [| x before IH].
  - change ("" +:+ sub +:+ after) with (sub +:+ after).
    destruct (sub +:+ after) eqn:E; cbn [containsb];
      rewrite <- E, prefix_append; done.
  - change (String x before +:+ sub +:+ after) with (String x (before +:+ sub +:+ after)).
    cbn [containsb]. rewrite IH. apply orb_true_r.
Qed.

Lemma contains_here sub after : contains (sub +:+ after) sub.
Proof. by exists "", after. Qed.

Lemma contains_after before s sub : contains s sub -> contains (before +:+ s) sub.
Proof.
  intros (b & a & ->). exists (before +:+ b), a. by rewrite append_assoc.
Qed.

Lemma contains_before s after sub : contains s sub -> contains (s +:+ after) sub.
Proof.
  intros (b & a & ->). exists b, (a +:+ after). by rewrite !append_assoc.
Qed.

(** [a || b] shows [a] itself or the default: in both cases what follows
    a label still starts with the given text. *)
Lemma orElse_shows label text fallback after :
  contains (label +:+ orElse (Some text) fallback +:+ after) (label +:+ text).
Proof.
  unfold orElse. destruct (String.eqb_spec text "") as [-> | _].
  - rewrite append_empty_r. apply contains_here.
  - rewrite <- append_assoc. apply contains_here.
Qed.

Section Composer.

Variable env : Env.

(** The context block of the prompt is the marked chunks, in the order the
    retriever returned them, separated by blank lines. *)
Lemma promptContext_cons doc rest :
  rest <> [] ->
  promptContext (doc :: rest)
  = "[Context Chunk]: " +:+ pageContent doc +:+ newline +:+ newline +:+ promptContext rest.
Proof.
  unfold promptContext. destruct rest as [| doc' rest]; [done |]. intros _.
  cbn [map join]. by rewrite !append_assoc.
Qed.

Lemma systemPrompt_shows context results :
  promptShows env context results (systemPrompt env context results).
Proof.
  unfold promptShows, systemPrompt. repeat split.
  - intros text ->. apply contains_after.
    change ("    Title: " +:+ ?x) with ("    " +:+ "Title: " +:+ x).
    apply contains_after. apply orElse_shows.
  - intros text ->. do 4 apply contains_after.
    change ("    Description: " +:+ ?x) with ("    " +:+ "Description: " +:+ x).
    apply contains_after. apply orElse_shows.
  - assert (Hline : forall shown after,
              contains (promptHead +:+ "    Title: " +:+ orElse (title context) "Unknown"
                        +:+ newline +:+ "    Description: "
                        +:+ orElse (description context) "None" +:+ newline
                        +:+ "    Current User Timestamp: " +:+ shown +:+ after)
                       ("Current User Timestamp: " +:+ shown)).
    { intros shown after. do 7 apply contains_after.
      change ("    Current User Timestamp: " +:+ ?x)
        with ("    " +:+ "Current User Timestamp: " +:+ x).
      apply contains_after. rewrite <- append_assoc. apply contains_here. }
    unfold timestampText, truthyNumber.
    destruct (timestamp context) as [t |]; [| apply Hline].
    destruct (Qeq_bool t 0); simpl negb; cbv iota; apply Hline.
  - eexists. unfold promptContext.
    rewrite <- !append_assoc. reflexivity.
Qed.

(** C8, amended.  For a non-empty retrieval result the composer hands
    LangChain the prompt [systemPrompt env context results], and any chain it
    returns carries that prompt.  The prompt shows the title and the
    description after their labels, the timestamp floored to whole seconds
    followed by "s" (or the word "Start" when the timestamp is absent or is
    zero), and ends with the retrieved chunks, each behind the marker
    "[Context Chunk]: ", in retrieval order and separated by blank lines. *)
Theorem retrieveAndCompose_prompt query namespace context finalConfig w results :
  results <> [] ->
  fromExistingIndex env (emit (FromExistingIndex namespace) w) namespace = Return tt ->
  retrieverInvoke env
    (emit (RetrieverInvoke namespace query (topK finalConfig))
          (emit (FromExistingIndex namespace) w))
    namespace query (topK finalConfig) = Return results ->
  let run := retrieveAndCompose env query namespace context finalConfig w in
  let prompt := systemPrompt env context results in
  In (PromptFromMessages prompt "{query}") (trace (snd run)) /\
  (forall answer, fst run = Return answer ->
     exists chain, answer = Streaming chain /\ chainSystem chain = prompt) /\
  promptShows env context results prompt.
Proof.
  intros Hne Hstore Hfound run prompt.
  split; [| split; [| apply systemPrompt_shows]].
  - subst run. unfold retrieveAndCompose.
    rewrite bind_run. unfold call at 1. rewrite Hstore.
    rewrite bind_run. unfold call at 1. rewrite Hfound.
    destruct results as [| doc rest]; [done |].
    rewrite bind_run. unfold call at 1.
    assert (Hin : forall w', In (PromptFromMessages prompt "{query}")
                               (trace (emit PipeChain
                                  (emit (PromptFromMessages prompt "{query}") w')))).
    { intros w'. simpl. rewrite !in_app_iff. left. right. by left. }
    destruct (promptFromMessages env _ _) as [[] | error].
    + apply Hin.
    + simpl. rewrite in_app_iff. right. by left.
  - intros answer. subst run. unfold retrieveAndCompose.
    rewrite bind_run. unfold call at 1. rewrite Hstore.
    rewrite bind_run. unfold call at 1. rewrite Hfound.
    destruct results as [| doc rest]; [done |].
    rewrite bind_run. unfold call at 1.
    destruct (promptFromMessages env _ _) as [[] | error]; [| done].
    simpl. intros [= <-]. by eexists.
Qed.

End Composer.

(** C8 as stated fails at timestamp 0: the number is present, yet the
    prompt shows "Start", and the floored number followed by "s" occurs
    nowhere in it. *)
Lemma systemPrompt_zero_timestamp :
  timestamp startContext = Some (0 # 1) /\
  ~ contains (systemPrompt indexedEnv startContext [helloChunk])
             (numberToString indexedEnv (Qfloor (0 # 1)) +:+ "s") /\
  containsb "Current User Timestamp: Start"
            (systemPrompt indexedEnv startContext [helloChunk]) = true.
Proof.
  split; [reflexivity |]. split; [| vm_compute; reflexivity].
  intros H. apply contains_containsb in H. vm_compute in H. discriminate.
Qed.

Lemma retrieveAndCompose_prompt_witness :
  promptShows indexedEnv Fixture.rickContext [Fixture.rickChunk]
              (systemPrompt indexedEnv Fixture.rickContext [Fixture.rickChunk]).
Proof.
  apply (retrieveAndCompose_prompt indexedEnv "What is this video about?"
           "yt-dQw4w9WgXcQ" Fixture.rickContext DEFAULT_CONFIG cachedWorld
           [Fixture.rickChunk]).
  - discriminate.
  - reflexivity.
  - reflexivity.
Defined.

(** ** The route, when nothing is found *)

Lemma respondError_trace err res w : trace (snd (respondError err res w)) = trace w.
Proof. unfold respondError. by destruct (negb (headersSent res)). Qed.

(** When retrieval for the request's query comes back empty, the whole
    request goes by without a prompt, a chain or a stream: the handler
    never reaches [result.stream]. *)
Lemma postAskYoutube_empty_retrieval env req w :
  (forall w' namespace k,
     retrieverInvoke env w' namespace (default "" (r_query req)) k = Return []) ->
  exists evs,
    trace (snd (postAskYoutube env req w)) = (trace w ++ evs)%list /\
    forallb (fun e => negb (isModelUse e)) evs = true.
Proof.
  intros Hnone. unfold postAskYoutube.
  destruct (negb (truthyString (r_videoUrl req)) || negb (truthyString (r_query req))).
  { exists []. by rewrite app_nil_r. }
  unfold call at 1.
  destruct (importYoutubeModule env (emit ImportYoutubeModule w)) as [[] | err].
  - destruct (askYoutube_literalOnly env (default "" (r_query req)) Hnone
                (default "" (r_videoUrl req))
                (MkContext (r_title req) (r_description req) (r_timestamp req)
                           (r_transcript req))
                noOverrides (emit ImportYoutubeModule w))
      as (evs & Htrace & Hquiet & Hret & _).
    destruct (askYoutube env _ _ _ _ (emit ImportYoutubeModule w))
      as [[[text | chain] | err] w2]; simpl in Htrace, Hret.
    + exists (ImportYoutubeModule :: evs). simpl.
      rewrite Htrace, <- app_assoc. by split.
    + by specialize (Hret _ eq_refl).
    + exists (ImportYoutubeModule :: evs). rewrite respondError_trace.
      rewrite Htrace. simpl. rewrite <- app_assoc. by split.
  - exists [ImportYoutubeModule]. rewrite respondError_trace. by split.
Qed.

(** * Further properties *)

(** ** The route: every request gets a complete response *)

Lemma writeFragments_response chunks res :
  writeFragments chunks res
  = MkResponse (statusCode res) (headers res) (body res ++ map Text chunks)%list
               (headersSent res || negb (bool_decide (chunks = []))) (finished res).
Proof.
  unfold writeFragments. revert res.
  induction chunks as [| chunk chunks IH]; intros res; simpl.
  - rewrite app_nil_r, orb_false_r. by destruct res.
  - rewrite IH. simpl. rewrite <- app_assoc, orb_true_r. simpl.
    by destruct (bool_decide (chunks = [])).
Qed.

(** The two outcomes of the [catch] block. *)
Lemma respondError_response err res w :
  fst (respondError err res w)
  = if headersSent res
    then MkResponse (statusCode res) (headers res) (body res ++ [errorMarker err])%list
                    true true
    else MkResponse 500 (headers res) (body res ++ [JsonObject "error" (errorText err)])%list
                    true true.
Proof. unfold respondError. by destruct (headersSent res). Qed.

(** A request that passes the check: the route imports the module, calls
    [askYoutube] and answers according to what comes back. *)
Lemma postAskYoutube_accepted env req w :
  truthyString (r_videoUrl req) = true ->
  truthyString (r_query req) = true ->
  fst (postAskYoutube env req w) =
    let videoUrl := default "" (r_videoUrl req) in
    let query := default "" (r_query req) in
    let context := MkContext (r_title req) (r_description req) (r_timestamp req)
                             (r_transcript req) in
    let w1 := emit ImportYoutubeModule w in
    let failed err := MkResponse 500 streamingHeaders [JsonObject "error" (errorText err)]
                                 true true in
    match importYoutubeModule env w1 with
    | Throw err => failed err
    | Return _ =>
        match askYoutube env videoUrl query context noOverrides w1 with
        | (Throw err, _) => failed err
        | (Return (Literal result), _) =>
            MkResponse 200 streamingHeaders [JsonObject "answer" result] true true
        | (Return (Streaming chain), w2) =>
            match chainStream env (emit (ChainStream query) w2) (chainSystem chain) query with
            | Throw err => failed err
            | Return stream =>
                match failure stream, fragments stream with
                | None, chunks => MkResponse 200 streamingHeaders (map Text chunks) true true
                | Some err, [] => failed err
                | Some err, chunks =>
                    MkResponse 200 streamingHeaders (map Text chunks ++ [errorMarker err])%list
                               true true
                end
            end
        end
    end.
Proof.
  intros Hurl Hquery. unfold postAskYoutube. rewrite Hurl, Hquery. cbn [negb orb].
  unfold call. cbv beta iota zeta.
  destruct (importYoutubeModule env (emit ImportYoutubeModule w)) as [[] | err];
    cbv beta iota.
  2: { by rewrite respondError_response. }
  destruct (askYoutube env _ _ _ noOverrides _) as [[[result | chain] | err] w2];
    cbv beta iota.
  - reflexivity.
  - destruct (chainStream env _ _ _) as [stream | err]; cbv beta iota.
    2: { by rewrite respondError_response. }
    destruct (failure stream) as [err |].
    + rewrite respondError_response, writeFragments_response. simpl.
      destruct (fragments stream) as [| chunk chunks]; reflexivity.
    + rewrite writeFragments_response. reflexivity.
  - by rewrite respondError_response.
Qed.

(** Whatever the collaborators answer, the response the handler builds for
    a parsed body is ended, and its status is 200, 400 or 500, with 400
    exactly when [videoUrl] or [query] is missing or empty. *)
Lemma postAskYoutube_always_ends env req w :
  let res := fst (postAskYoutube env req w) in
  finished res = true /\
  headersSent res = true /\
  (statusCode res = 200 \/ statusCode res = 400 \/ statusCode res = 500)%nat /\
  (statusCode res = 400%nat <->
   truthyString (r_videoUrl req) = false \/ truthyString (r_query req) = false).
Proof.
  destruct (truthyString (r_videoUrl req)) eqn:Hurl.
  1: destruct (truthyString (r_query req)) eqn:Hquery.
  - cbv zeta. rewrite (postAskYoutube_accepted env req w Hurl Hquery). cbv zeta.
    assert (Hno : forall A B : Prop, (A <-> B) -> A -> B) by tauto.
    destruct (importYoutubeModule env _) as [[] | err];
      [destruct (askYoutube env _ _ _ noOverrides _) as [[[result | chain] | err] w2];
       [| destruct (chainStream env _ _ _) as [stream | err];
          [destruct (failure stream) as [err |], (fragments stream) as [| chunk chunks] |] |] |];
      simpl; (repeat split; auto; try discriminate; intros [? | ?]; discriminate).
  - unfold postAskYoutube. rewrite Hurl, Hquery. simpl. repeat split; auto.
  - unfold postAskYoutube. rewrite Hurl. simpl. repeat split; auto.
Qed.

(** The only 400 is the request check.  A request without a parsed body
    makes the handler throw at the destructuring, before the check, with
    nothing written and the world as it was.  For a request with a body,
    in a run where every awaited call settles, the handler completes with a
    response whose status is 400 exactly when [videoUrl] or [query] is
    missing or empty, and 200 or 500 otherwise. *)
Theorem askYoutubeRoute_status env body w :
  match body with
  | None => exists error, askYoutubeRoute env None w = (Throw error, w)
  | Some req =>
      exists res w',
        askYoutubeRoute env (Some req) w = (Return res, w') /\
        (statusCode res = 400%nat <->
         truthyString (r_videoUrl req) = false \/ truthyString (r_query req) = false) /\
        (statusCode res = 200 \/ statusCode res = 400 \/ statusCode res = 500)%nat
  end.
Proof.
  destruct body as [req |]; [| by eexists].
  unfold askYoutubeRoute.
  pose proof (postAskYoutube_always_ends env req w) as H. cbv zeta in H.
  destruct (postAskYoutube env req w) as [res w']. simpl in H.
  destruct H as (_ & _ & Hstatus & Hcheck).
  exists res, w'. split; [done |]. split; [exact Hcheck | exact Hstatus].
Qed.

(** A failure of the module import or of [askYoutube] reaches the client as
    a 500 response carrying the error's message ("Server error" when the
    message is empty); nothing was streamed. *)
Theorem postAskYoutube_failure_is_500 env req w err :
  truthyString (r_videoUrl req) = true ->
  truthyString (r_query req) = true ->
  importYoutubeModule env (emit ImportYoutubeModule w) = Throw err \/
  (importYoutubeModule env (emit ImportYoutubeModule w) = Return tt /\
   fst (askYoutube env (default "" (r_videoUrl req)) (default "" (r_query req))
          (MkContext (r_title req) (r_description req) (r_timestamp req) (r_transcript req))
          noOverrides (emit ImportYoutubeModule w)) = Throw err) ->
  fst (postAskYoutube env req w)
  = MkResponse 500 streamingHeaders [JsonObject "error" (errorText err)] true true.
Proof.
  intros Hurl Hquery H. rewrite (postAskYoutube_accepted env req w Hurl Hquery). cbv zeta.
  destruct H as [-> | [-> Hask]]; [done |].
  destruct (askYoutube env _ _ _ noOverrides _) as [r w2]. simpl in Hask. by subst r.
Qed.

Lemma postAskYoutube_failure_is_500_witness :
  fst (postAskYoutube noApiKey rickRequest cachedWorld)
  = MkResponse 500 streamingHeaders
      [JsonObject "error" "Primary LLM failed and no fallback configured."] true true.
Proof.
  apply (postAskYoutube_failure_is_500 noApiKey rickRequest cachedWorld
           (MkError "Primary LLM failed and no fallback configured.")).
  - reflexivity.
  - reflexivity.
  - right. split; reflexivity.
Defined.

(** When [askYoutube] hands back a chain, the route streams it once with the
    request's query.  A stream that completes gives status 200 and the
    fragments in order.  A stream that fails after at least one fragment
    keeps status 200 and ends with the error marker; one that fails before
    any fragment gives a 500 response. *)
Theorem postAskYoutube_streams env req w chain w2 stream :
  truthyString (r_videoUrl req) = true ->
  truthyString (r_query req) = true ->
  importYoutubeModule env (emit ImportYoutubeModule w) = Return tt ->
  askYoutube env (default "" (r_videoUrl req)) (default "" (r_query req))
    (MkContext (r_title req) (r_description req) (r_timestamp req) (r_transcript req))
    noOverrides (emit ImportYoutubeModule w) = (Return (Streaming chain), w2) ->
  chainStream env (emit (ChainStream (default "" (r_query req))) w2) (chainSystem chain)
    (default "" (r_query req)) = Return stream ->
  fst (postAskYoutube env req w) =
    match failure stream, fragments stream with
    | None, chunks => MkResponse 200 streamingHeaders (map Text chunks) true true
    | Some err, [] =>
        MkResponse 500 streamingHeaders [JsonObject "error" (errorText err)] true true
    | Some err, chunks =>
        MkResponse 200 streamingHeaders (map Text chunks ++ [errorMarker err])%list true true
    end.
Proof.
  intros Hurl Hquery Himport Hask Hstream.
  rewrite (postAskYoutube_accepted env req w Hurl Hquery). cbv zeta.
  by rewrite Himport, Hask, Hstream.
Qed.

Lemma postAskYoutube_streams_witness :
  fst (postAskYoutube brokenStream rickRequest cachedWorld)
  = MkResponse 200 streamingHeaders
      [Text "Never"; Text " gonna"; errorMarker (MkError "socket hang up")] true true.
Proof.
  refine (postAskYoutube_streams brokenStream rickRequest cachedWorld _ _
            (MkStream ["Never"; " gonna"] (Some (MkError "socket hang up")))
            eq_refl eq_refl eq_refl _ _).
  - vm_compute. reflexivity.
  - reflexivity.
Defined.

(** ** What one request can touch *)

Section Footprint.

Variable env : Env.
Variable namespace : string.
Variable R : World -> World -> Prop.
Hypothesis R_refl : forall w, R w w.
Hypothesis R_trans : forall a b c, R a b -> R b c -> R a c.
Hypothesis R_log : forall line w, R w (logLine line w).
Hypothesis R_stamp :
  forall t w, R w (setCache (<[namespace := t]> (embeddingCache w)) w).
Hypothesis R_write :
  forall docs w, R w (setPinecone (storeAppend namespace docs (pinecone w)) w).
Variable allowed : Event -> bool.
Hypothesis R_emit : forall e w, allowed e = true -> R w (emit e w).

Lemma fp_call {A} e (answer : World -> Outcome A) :
  allowed e = true -> framed R (call e answer).
Proof. intros H. apply framed_call. intros w. by apply R_emit. Qed.

Lemma fp_stamp : framed R (updateCache env namespace).
Proof. apply framed_modify. intros w. apply R_stamp. Qed.

Lemma fp_namespaceExists :
  allowed DescribeIndexStats = true -> framed R (namespaceExists env namespace).
Proof.
  intros He. unfold namespaceExists.
  apply framed_tryCatch; [done | |].
  - apply framed_bind; [done | by apply framed_gets |]. intros fresh.
    apply framed_if; [by apply framed_ret |].
    apply framed_bind; [done | by apply fp_call |]. intros stats.
    apply framed_bind; [done | | intros; by apply framed_ret].
    apply framed_if; [| by apply framed_ret].
    apply framed_modify. intros w. apply R_stamp.
  - intros e. apply framed_bind; [done | | intros; by apply framed_ret].
    apply framed_modify. intros w. apply R_log.
Qed.

Lemma fp_vectorStoreAddDocuments documents :
  allowed (AddDocuments namespace documents) = true ->
  framed R (vectorStoreAddDocuments env namespace documents).
Proof.
  intros He w. unfold vectorStoreAddDocuments.
  pose proof (R_emit _ w He) as H1. cbv zeta.
  destruct (addDocuments env _ namespace documents); cbn [snd];
    (eapply R_trans; [exact H1 | apply R_write]).
Qed.

Lemma fp_storeWithRetries fuel finalConfig documents attempts :
  allowed (AddDocuments namespace documents) = true ->
  (forall ms, allowed (SetTimeout ms) = true) ->
  framed R (storeWithRetries env fuel finalConfig namespace documents attempts).
Proof.
  intros Hadd Hwait. revert attempts.
  induction fuel as [| fuel IH]; intros attempts; simpl.
  { by apply framed_ret. }
  apply framed_if; [| by apply framed_ret].
  apply framed_tryCatch; [done | |].
  - apply framed_bind; [done | by apply fp_vectorStoreAddDocuments |].
    intros _. apply framed_bind; [done | apply fp_stamp |].
    intros _. by apply fp_call.
  - intros error. apply framed_bind; [done | |].
    + apply framed_modify. intros w. apply R_log.
    + intros _. apply framed_if; [by apply framed_throw |].
      apply framed_bind; [done | by apply fp_call | intros _; apply IH].
Qed.

Lemma fp_loadTranscript videoUrl context :
  (truthyString (transcript context) = false ->
   allowed (YoutubeLoaderLoad videoUrl) = true) ->
  framed R (loadTranscript env videoUrl context).
Proof.
  intros Hload. unfold loadTranscript.
  destruct (truthyString (transcript context)); [by apply framed_ret |].
  apply framed_tryCatch; [done | by apply fp_call; auto |].
  intros e. apply framed_bind; [done | | intros _; by apply framed_throw].
  apply framed_modify. intros w. apply R_log.
Qed.

Lemma fp_ingest videoUrl videoId context finalConfig :
  (truthyString (transcript context) = false ->
   allowed (YoutubeLoaderLoad videoUrl) = true) ->
  (forall text, allowed (SplitText text) = true) ->
  allowed (FromExistingIndex namespace) = true ->
  (maxRetries finalConfig = 0%nat \/
   forall documents, allowed (AddDocuments namespace documents) = true) ->
  (forall ms, allowed (SetTimeout ms) = true) ->
  framed R (ingest env videoUrl videoId namespace context finalConfig).
Proof.
  intros Hload Hsplit Hindex Hadd Hwait. unfold ingest.
  apply framed_bind; [done | |].
  { apply framed_modify. intros w. apply R_log. }
  intros _. apply framed_bind; [done | by apply fp_loadTranscript |].
  intros docs. apply framed_if; [by apply framed_throw |].
  apply framed_bind; [done | by apply fp_call |].
  intros textChunks. apply framed_bind; [done | by apply framed_gets |].
  intros clock. apply framed_bind; [done | by apply fp_call |].
  intros _. destruct Hadd as [-> | Hadd].
  - by apply framed_ret.
  - by apply fp_storeWithRetries.
Qed.

Lemma fp_pipeline videoUrl videoId query context finalConfig :
  namespace = "yt-" +:+ videoId ->
  allowed (NewChatOpenAI (modelName finalConfig)) = true ->
  allowed (NewOpenAIEmbeddings (embeddingModel finalConfig)) = true ->
  allowed NewPineconeIndex = true ->
  allowed DescribeIndexStats = true ->
  (truthyString (transcript context) = false ->
   allowed (YoutubeLoaderLoad videoUrl) = true) ->
  (forall text, allowed (SplitText text) = true) ->
  allowed (FromExistingIndex namespace) = true ->
  (maxRetries finalConfig = 0%nat \/
   forall documents, allowed (AddDocuments namespace documents) = true) ->
  (forall ms, allowed (SetTimeout ms) = true) ->
  allowed (RetrieverInvoke namespace query (topK finalConfig)) = true ->
  (forall prompt, allowed (PromptFromMessages prompt "{query}") = true) ->
  allowed PipeChain = true ->
  framed R (pipeline env videoUrl videoId query context finalConfig).
Proof.
  intros Hns H1 H2 H3 H4 H5 H6 H7 H8 H9 H10 H11 H12. unfold pipeline.
  rewrite <- Hns.
  apply framed_bind; [done | |].
  { apply framed_initClients; auto. }
  intros _. apply framed_bind; [done | by apply fp_namespaceExists |].
  intros exists_. apply framed_bind; [done | |].
  { apply framed_if; [by apply fp_ingest | by apply framed_ret]. }
  intros _. apply framed_retrieveAndCompose; auto.
Qed.

End Footprint.

Lemma framed_run (R : World -> World -> Prop) {A} (m : M A) w :
  framed R m -> R w (snd (m w)).
Proof. intros H. apply H. Qed.

Lemma cacheKept_refl namespace w : cacheKept namespace w w.
Proof. by split. Qed.

Lemma cacheKept_trans namespace a b c :
  cacheKept namespace a b -> cacheKept namespace b c -> cacheKept namespace a c.
Proof.
  intros [O1 K1] [O2 K2]. split.
  - intros k Hk. by rewrite O2, O1.
  - auto.
Qed.

Lemma cacheKept_stamp namespace t w :
  cacheKept namespace w (setCache (<[namespace := t]> (embeddingCache w)) w).
Proof.
  split; simpl.
  - intros k Hk. by rewrite lookup_insert_ne.
  - intros k Hk. destruct (decide (namespace = k)) as [-> | Hne].
    + by rewrite lookup_insert_eq.
    + by rewrite lookup_insert_ne.
Qed.

Lemma pipeline_footprint env videoUrl videoId query context finalConfig w :
  emitted (requestFootprint videoUrl ("yt-" +:+ videoId) query finalConfig
             (truthyString (transcript context)))
          w (snd (pipeline env videoUrl videoId query context finalConfig w)).
Proof.
  apply (framed_run (emitted _)).
  apply (fp_pipeline env ("yt-" +:+ videoId) (emitted _) (emitted_refl _) (emitted_trans _))
    with (allowed := requestFootprint videoUrl ("yt-" +:+ videoId) query finalConfig
                       (truthyString (transcript context)));
    try done.
  - intros. by apply emitted_same_trace.
  - intros. by apply emitted_same_trace.
  - intros. by apply emitted_same_trace.
  - intros e w0. apply emitted_emit.
  - simpl. apply String.eqb_refl.
  - simpl. apply String.eqb_refl.
  - intros Hnone. simpl. by rewrite Hnone, String.eqb_refl.
  - simpl. apply String.eqb_refl.
  - right. intros documents. simpl. apply String.eqb_refl.
  - simpl. by rewrite !String.eqb_refl, Nat.eqb_refl.
Qed.

(** Every call an [askYoutube] run makes lies in the footprint of its
    request: all store traffic goes to the namespace "yt-" + video id, the
    one retrieval asks for the request's query with the configured [topK],
    the transcript loader is called only when the caller sent no
    transcript, and the chain is built but never run.  Without a video id
    the world is left as it was. *)
Theorem askYoutube_footprint env videoUrl query context config w :
  let run := askYoutube env videoUrl query context config w in
  match urlSearchParam env videoUrl "v" with
  | Return (Some videoId) =>
      emitted (requestFootprint videoUrl ("yt-" +:+ videoId) query
                 (mergeConfig DEFAULT_CONFIG config)
                 (truthyString (transcript context)))
              w (snd run)
  | _ => snd run = w
  end.
Proof.
  cbv zeta. rewrite askYoutube_run.
  destruct (urlSearchParam env videoUrl "v") as [[videoId |] | error]; try done.
  destruct (String.eqb videoId ""); [apply emitted_refl |].
  apply pipeline_footprint.
Qed.

(** A run of [askYoutube] never drops a cache record and changes none but
    the record of the request's own namespace. *)
Theorem askYoutube_cache_kept env videoUrl query context config w :
  let run := askYoutube env videoUrl query context config w in
  match urlSearchParam env videoUrl "v" with
  | Return (Some videoId) => cacheKept ("yt-" +:+ videoId) w (snd run)
  | _ => snd run = w
  end.
Proof.
  cbv zeta. rewrite askYoutube_run.
  destruct (urlSearchParam env videoUrl "v") as [[videoId |] | error]; try done.
  destruct (String.eqb videoId ""); [apply cacheKept_refl |].
  apply (framed_run (cacheKept _)).
  apply (fp_pipeline env ("yt-" +:+ videoId) (cacheKept _)
           (cacheKept_refl _) (cacheKept_trans _)) with (allowed := fun _ => true);
    try done.
  - apply cacheKept_stamp.
  - by right.
Qed.

(** With [maxRetries] overridden to 0 the loop of step 5 is never entered,
    so no run of [askYoutube] writes to the store. *)
Lemma askYoutube_zero_retries_writes_nothing env videoUrl query context config w :
  o_maxRetries config = Some 0%nat ->
  emitted notWrite w (snd (askYoutube env videoUrl query context config w)).
Proof.
  intros Hzero. rewrite askYoutube_run.
  destruct (urlSearchParam env videoUrl "v") as [[videoId |] | error];
    try apply emitted_refl.
  destruct (String.eqb videoId ""); [apply emitted_refl |].
  apply (framed_run (emitted notWrite)).
  apply (fp_pipeline env ("yt-" +:+ videoId) (emitted notWrite)
           (emitted_refl _) (emitted_trans _)) with (allowed := notWrite);
    try done.
  - intros. by apply emitted_same_trace.
  - intros. by apply emitted_same_trace.
  - intros. by apply emitted_same_trace.
  - intros e w0. apply emitted_emit.
  - left. simpl. by rewrite Hzero.
Qed.

Lemma loadTranscript_keeps env videoUrl context w :
  embeddingCache (snd (loadTranscript env videoUrl context w)) = embeddingCache w /\
  pinecone (snd (loadTranscript env videoUrl context w)) = pinecone w.
Proof.
  unfold loadTranscript. destruct (truthyString (transcript context)); [done |].
  unfold tryCatch, call. cbv zeta.
  by destruct (youtubeLoaderLoad env _ videoUrl).
Qed.

(** With [maxRetries] overridden to 0, take a request for a video that is
    not indexed whose transcript is obtained and split and whose store
    handle is obtained.  The write loop is not entered and raises no error:
    ingestion completes with the cache and the store exactly as they were
    when it was entered, the run goes straight on to retrieval over the
    namespace it never filled, and the whole run contains no store write. *)
Theorem askYoutube_zero_retries env videoUrl videoId query context config
    w w1 exists_ w2 docs w3 textChunks :
  o_maxRetries config = Some 0%nat ->
  urlSearchParam env videoUrl "v" = Return (Some videoId) ->
  videoId <> "" ->
  initClients env (mergeConfig DEFAULT_CONFIG config) w = (Return tt, w1) ->
  namespaceExists env ("yt-" +:+ videoId) w1 = (Return exists_, w2) ->
  truthy exists_ = false ->
  loadTranscript env videoUrl context (logLine ("Processing new video: " +:+ videoId) w2)
  = (Return docs, w3) ->
  transcriptMissing env docs = false ->
  splitText env (chunkSize (mergeConfig DEFAULT_CONFIG config))
    (chunkOverlap (mergeConfig DEFAULT_CONFIG config)) separators
    (from_option pageContent "" (head docs)) = Return textChunks ->
  fromExistingIndex env
    (emit (FromExistingIndex ("yt-" +:+ videoId))
          (emit (SplitText (from_option pageContent "" (head docs))) w3))
    ("yt-" +:+ videoId) = Return tt ->
  let entered := emit (FromExistingIndex ("yt-" +:+ videoId))
                      (emit (SplitText (from_option pageContent "" (head docs))) w3) in
  ingest env videoUrl videoId ("yt-" +:+ videoId) context
         (mergeConfig DEFAULT_CONFIG config) w2 = (Return tt, entered) /\
  embeddingCache entered = embeddingCache w2 /\
  pinecone entered = pinecone w2 /\
  askYoutube env videoUrl query context config w
  = retrieveAndCompose env query ("yt-" +:+ videoId) context
      (mergeConfig DEFAULT_CONFIG config) entered /\
  emitted notWrite w (snd (askYoutube env videoUrl query context config w)).
Proof.
  intros Hzero Hurl Hid Hinit Hexists Hfalsy Hload Hpresent Hsplit Hstore entered.
  assert (Hingest : ingest env videoUrl videoId ("yt-" +:+ videoId) context
                      (mergeConfig DEFAULT_CONFIG config) w2 = (Return tt, entered)).
  { unfold ingest. rewrite bind_run. unfold modify at 1. cbv beta iota.
    rewrite bind_run, Hload, Hpresent.
    rewrite bind_run. unfold call at 1. cbv beta zeta. rewrite Hsplit.
    rewrite bind_run. unfold gets at 1. cbv beta iota.
    rewrite bind_run. unfold call at 1. cbv beta zeta. rewrite Hstore.
    replace (maxRetries (mergeConfig DEFAULT_CONFIG config)) with 0%nat
      by (simpl; by rewrite Hzero).
    reflexivity. }
  split; [exact Hingest |].
  pose proof (loadTranscript_keeps env videoUrl context
                (logLine ("Processing new video: " +:+ videoId) w2)) as [Hc Hp].
  rewrite Hload in Hc, Hp. simpl in Hc, Hp.
  split; [exact Hc |]. split; [exact Hp |].
  split; [| by apply askYoutube_zero_retries_writes_nothing].
  rewrite askYoutube_run, Hurl. apply String.eqb_neq in Hid. rewrite Hid.
  unfold pipeline. rewrite bind_run, Hinit. rewrite bind_run, Hexists.
  rewrite Hfalsy. simpl negb. cbv iota. by rewrite bind_run, Hingest.
Qed.

Lemma askYoutube_zero_retries_witness :
  exists entered,
    askYoutube flakyStore Fixture.rickUrl "What is this video about?"
               Fixture.rickContext zeroRetries Fixture.emptyWorld
    = retrieveAndCompose flakyStore "What is this video about?" "yt-dQw4w9WgXcQ"
        Fixture.rickContext (mergeConfig DEFAULT_CONFIG zeroRetries) entered /\
    embeddingCache entered = ∅ /\ pinecone entered = ∅.
Proof.
  pose proof (askYoutube_zero_retries flakyStore Fixture.rickUrl "dQw4w9WgXcQ"
                "What is this video about?" Fixture.rickContext zeroRetries
                Fixture.emptyWorld
                (emit NewPineconeIndex
                   (emit (NewOpenAIEmbeddings "text-embedding-3-small")
                      (emit (NewChatOpenAI "gpt-3.5-turbo") Fixture.emptyWorld)))
                (JsBool false)
                (emit DescribeIndexStats
                   (emit NewPineconeIndex
                      (emit (NewOpenAIEmbeddings "text-embedding-3-small")
                         (emit (NewChatOpenAI "gpt-3.5-turbo") Fixture.emptyWorld))))
                [MkDocument Fixture.rickTranscript [("source", MetaString Fixture.rickUrl)]]
                (logLine "Processing new video: dQw4w9WgXcQ"
                   (emit DescribeIndexStats
                      (emit NewPineconeIndex
                         (emit (NewOpenAIEmbeddings "text-embedding-3-small")
                            (emit (NewChatOpenAI "gpt-3.5-turbo") Fixture.emptyWorld)))))
                [Fixture.rickTranscript]
                eq_refl eq_refl ltac:(discriminate) eq_refl eq_refl eq_refl eq_refl
                eq_refl eq_refl eq_refl) as H.
  cbv zeta in H. destruct H as (_ & Hcache & Hstore & Hrun & _).
  eexists. split; [exact Hrun |]. split; [exact Hcache | exact Hstore].
Defined.

(** With the loop switched off the new video is split, never stored and
    never cached, and the request still goes on to retrieval. *)
Example askYoutube_zero_retries_run :
  let run := askYoutube flakyStore Fixture.rickUrl "What is this video about?"
               Fixture.rickContext zeroRetries Fixture.emptyWorld in
  trace (snd run)
  = [NewChatOpenAI "gpt-3.5-turbo"; NewOpenAIEmbeddings "text-embedding-3-small";
     NewPineconeIndex; DescribeIndexStats; SplitText Fixture.rickTranscript;
     FromExistingIndex "yt-dQw4w9WgXcQ"; FromExistingIndex "yt-dQw4w9WgXcQ";
     RetrieverInvoke "yt-dQw4w9WgXcQ" "What is this video about?" 6;
     PromptFromMessages (systemPrompt flakyStore Fixture.rickContext [Fixture.rickChunk])
                        "{query}";
     PipeChain] /\
  embeddingCache (snd run) = ∅ /\
  pinecone (snd run) = ∅.
Proof. vm_compute. done. Qed.

(** ** Failures before anything is stored *)

(** When the [ChatOpenAI] constructor throws, [askYoutube] replaces the
    error, whatever it was, by "Primary LLM failed and no fallback
    configured." and stops: the constructor call is the only call made. *)
Theorem askYoutube_llm_unavailable env videoUrl query context config w videoId error :
  urlSearchParam env videoUrl "v" = Return (Some videoId) ->
  videoId <> "" ->
  let model := modelName (mergeConfig DEFAULT_CONFIG config) in
  newChatOpenAI env (emit (NewChatOpenAI model) w) model = Throw error ->
  askYoutube env videoUrl query context config w
  = (Throw (MkError "Primary LLM failed and no fallback configured."),
     logLine "OpenAI init failed, trying TogetherAI..." (emit (NewChatOpenAI model) w)).
Proof.
  intros Hurl Hid model Hinit. rewrite askYoutube_run, Hurl.
  apply String.eqb_neq in Hid. rewrite Hid.
  unfold pipeline, initClients. rewrite !bind_run.
  unfold tryCatch, call at 1. fold model. rewrite Hinit.
  reflexivity.
Qed.

Lemma askYoutube_llm_unavailable_witness :
  askYoutube noApiKey Fixture.rickUrl "What is this video about?" Fixture.rickContext
             noOverrides cachedWorld
  = (Throw (MkError "Primary LLM failed and no fallback configured."),
     logLine "OpenAI init failed, trying TogetherAI..."
             (emit (NewChatOpenAI "gpt-3.5-turbo") cachedWorld)).
Proof.
  apply (askYoutube_llm_unavailable noApiKey Fixture.rickUrl "What is this video about?"
           Fixture.rickContext noOverrides cachedWorld "dQw4w9WgXcQ"
           (MkError "OpenAI or Azure OpenAI API key not found")).
  - reflexivity.
  - discriminate.
  - reflexivity.
Defined.

(** Without a transcript from the caller, a failing loader ends ingestion
    with "Could not retrieve transcript. Please ensure the video has
    captions."; the loader call is the only call of the phase, and cache
    and store are untouched. *)
Theorem ingest_loader_failure env videoUrl videoId namespace context finalConfig w error :
  truthyString (transcript context) = false ->
  youtubeLoaderLoad env
    (emit (YoutubeLoaderLoad videoUrl) (logLine ("Processing new video: " +:+ videoId) w))
    videoUrl = Throw error ->
  exists w',
    ingest env videoUrl videoId namespace context finalConfig w
    = (Throw (MkError "Could not retrieve transcript. Please ensure the video has captions."),
       w') /\
    trace w' = (trace w ++ [YoutubeLoaderLoad videoUrl])%list /\
    embeddingCache w' = embeddingCache w /\
    pinecone w' = pinecone w.
Proof.
  intros Hnone Hload. unfold ingest, loadTranscript. rewrite Hnone.
  rewrite bind_run. unfold modify at 1. cbv beta iota.
  rewrite bind_run. unfold tryCatch, call at 1. cbv beta iota zeta. rewrite Hload.
  rewrite bind_run. unfold modify at 1, throw. cbv beta iota.
  eexists. split; [reflexivity |]. done.
Qed.

Lemma ingest_loader_failure_witness :
  exists w',
    ingest indexedEnv Fixture.rickUrl "dQw4w9WgXcQ" "yt-dQw4w9WgXcQ" bareContext
           DEFAULT_CONFIG Fixture.emptyWorld
    = (Throw (MkError "Could not retrieve transcript. Please ensure the video has captions."),
       w') /\
    trace w' = (trace Fixture.emptyWorld ++ [YoutubeLoaderLoad Fixture.rickUrl])%list /\
    embeddingCache w' = embeddingCache Fixture.emptyWorld /\
    pinecone w' = pinecone Fixture.emptyWorld.
Proof.
  apply (ingest_loader_failure indexedEnv Fixture.rickUrl "dQw4w9WgXcQ" "yt-dQw4w9WgXcQ"
           bareContext DEFAULT_CONFIG Fixture.emptyWorld (MkError "no captions"));
    reflexivity.
Defined.

(** A transcript that is missing (the loader returned no document) or
    blank (the first document is empty after trimming) ends ingestion with
    "Transcript not found or is empty." before the splitter or the store is
    called. *)
Theorem ingest_blank_transcript env videoUrl videoId namespace context finalConfig w docs w1 :
  loadTranscript env videoUrl context (logLine ("Processing new video: " +:+ videoId) w)
  = (Return docs, w1) ->
  (docs = [] \/ exists doc rest, docs = doc :: rest /\ trim env (pageContent doc) = "") ->
  ingest env videoUrl videoId namespace context finalConfig w
  = (Throw (MkError "Transcript not found or is empty."), w1).
Proof.
  intros Hload Hblank. unfold ingest.
  rewrite bind_run. unfold modify at 1. cbv beta iota.
  rewrite bind_run, Hload.
  assert (Hmissing : transcriptMissing env docs = true).
  { destruct Hblank as [-> | (doc & rest & -> & Htrim)]; [done |].
    simpl. by rewrite Htrim. }
  by rewrite Hmissing.
Qed.

Lemma ingest_blank_transcript_witness :
  ingest (withTrim indexedEnv) Fixture.rickUrl "dQw4w9WgXcQ" "yt-dQw4w9WgXcQ" blankContext
         DEFAULT_CONFIG Fixture.emptyWorld
  = (Throw (MkError "Transcript not found or is empty."),
     logLine "Processing new video: dQw4w9WgXcQ" Fixture.emptyWorld).
Proof.
  apply (ingest_blank_transcript (withTrim indexedEnv) Fixture.rickUrl "dQw4w9WgXcQ"
           "yt-dQw4w9WgXcQ" blankContext DEFAULT_CONFIG Fixture.emptyWorld
           [MkDocument "   " [("source", MetaString Fixture.rickUrl)]]).
  - reflexivity.
  - right. eexists _, _. split; reflexivity.
Defined.

(** ** The write loop, for any [maxRetries] *)

Section RetryOutcome.

Variable env : Env.
Variable finalConfig : Config.
Variable namespace : string.
Variable documents : list Document.

Lemma storeWithRetries_outcome_from fuel attempts w :
  (maxRetries finalConfig - attempts <= fuel)%nat ->
  (attempts < maxRetries finalConfig)%nat ->
  let run := storeWithRetries env fuel finalConfig namespace documents attempts w in
  match fst run with
  | Throw _ =>
      embeddingCache (snd run) = embeddingCache w /\
      exists evs,
        trace (snd run) = (trace w ++ evs)%list /\
        length (List.filter isWrite evs) = (maxRetries finalConfig - attempts)%nat
  | Return _ =>
      exists t, embeddingCache (snd run) = <[namespace := t]> (embeddingCache w)
  end.
Proof.
  revert attempts w. induction fuel as [| fuel IH]; intros attempts w Hfuel Hlt; [lia |].
  cbv zeta. rewrite storeWithRetries_step by done.
  destruct (addDocuments env _ namespace documents) as [| error stored].
  { simpl. by eexists. }
  destruct (Nat.eqb_spec (S attempts) (maxRetries finalConfig)) as [Heq | Hne].
  - simpl. split; [done |]. exists [AddDocuments namespace documents].
    split; [done |]. simpl. lia.
  - specialize (IH (S attempts)
                   (emit (SetTimeout (retryDelay finalConfig * Z.of_nat (S attempts)))
                         (writeFailed env namespace documents (S attempts) error stored w))
                   ltac:(lia) ltac:(lia)).
    cbv zeta in IH.
    destruct (storeWithRetries env fuel finalConfig namespace documents (S attempts) _)
      as [[[] | e] w']; simpl in IH |- *.
    + exact IH.
    + destruct IH as [Hcache (evs & Htrace & Hcount)]. split; [exact Hcache |].
      exists ([AddDocuments namespace documents;
               SetTimeout (retryDelay finalConfig * Z.of_nat (S attempts))] ++ evs)%list.
      split; [rewrite Htrace; by rewrite <- !app_assoc |].
      simpl. lia.
Qed.

(** Whatever [maxRetries] is: the loop throws only after exactly
    [maxRetries] failed writes and then leaves the cache as it found it; it
    ends normally either without having run (when [maxRetries] is 0, with
    the world unchanged) or with the namespace's cache record stamped. *)
Theorem storeWithRetries_outcome w :
  let run := storeWithRetries env (maxRetries finalConfig) finalConfig namespace documents
               0 w in
  match fst run with
  | Throw _ =>
      embeddingCache (snd run) = embeddingCache w /\
      exists evs,
        trace (snd run) = (trace w ++ evs)%list /\
        length (List.filter isWrite evs) = maxRetries finalConfig
  | Return _ =>
      (maxRetries finalConfig = 0%nat /\ snd run = w) \/
      exists t, embeddingCache (snd run) = <[namespace := t]> (embeddingCache w)
  end.
Proof.
  destruct (maxRetries finalConfig) as [| n] eqn:Hmax.
  { simpl. by left. }
  pose proof (storeWithRetries_outcome_from (S n) 0 w) as H.
  rewrite Hmax in H. specialize (H ltac:(lia) ltac:(lia)). cbv zeta in H |- *.
  destruct (storeWithRetries env (S n) finalConfig namespace documents 0 w)
    as [[[] | e] w']; simpl in H |- *.
  - by right.
  - exact H.
Qed.

End RetryOutcome.

(** ** The cache answers the next check *)

(** After [namespaceExists] has answered [true] the cache holds a record
    for the namespace, and while that record is younger than the TTL a
    further check answers [true] again without any call and without any
    change. *)
Theorem namespaceExists_true_is_cached env namespace w w' :
  namespaceExists env namespace w = (Return (JsBool true), w') ->
  exists stamp,
    embeddingCache w' !! namespace = Some stamp /\
    (dateNow env w' - stamp < 24 * 60 * 60 * 1000 ->
     namespaceExists env namespace w' = (Return (JsBool true), w')).
Proof.
  rewrite namespaceExists_run.
  assert (Hagain : forall w0 stamp,
            embeddingCache w0 !! namespace = Some stamp ->
            exists stamp,
              embeddingCache w0 !! namespace = Some stamp /\
              (dateNow env w0 - stamp < 24 * 60 * 60 * 1000 ->
               namespaceExists env namespace w0 = (Return (JsBool true), w0))).
  { intros w0 stamp Hc. exists stamp. split; [done |].
    intros Hage. by eapply namespaceExists_fresh. }
  destruct (cacheFresh env namespace w) eqn:Hfresh.
  - intros [= <-]. unfold cacheFresh in Hfresh.
    destruct (embeddingCache w !! namespace) as [stamp |] eqn:Hc; [| done].
    pose proof (Hagain w stamp Hc) as H. by rewrite Hc in H.
  - cbv zeta. destruct (describeIndexStats env _) as [stats | error]; [| done].
    destruct (namespaces stats) as [listed |]; [| done].
    destruct (bool_decide _); [| done].
    intros [= <-]. eapply Hagain. simpl. apply lookup_insert_eq.
Qed.

Lemma namespaceExists_true_is_cached_witness :
  exists stamp,
    embeddingCache (setCache (<[ "yt-dQw4w9WgXcQ" := 6000 ]> ∅)
                             (emit DescribeIndexStats Fixture.emptyWorld))
      !! "yt-dQw4w9WgXcQ" = Some stamp.
Proof.
  destruct (namespaceExists_true_is_cached indexedEnv "yt-dQw4w9WgXcQ" Fixture.emptyWorld
              (setCache (<[ "yt-dQw4w9WgXcQ" := 6000 ]> ∅)
                        (emit DescribeIndexStats Fixture.emptyWorld)))
    as (stamp & Hstamp & _).
  - vm_compute. reflexivity.
  - exists stamp. exact Hstamp.
Defined.

(** ** What [askYoutube] resolves to *)




(** ** Ingestion feeds the cache *)

(** When ingestion completes (and the write loop is not switched off), the
    namespace has a cache record; any later existence check that finds
    this record younger than the TTL answers [true] with no call at all,
    so the next request for the video skips ingestion. *)
Theorem ingest_then_cached env videoUrl videoId namespace context finalConfig w w' :
  (0 < maxRetries finalConfig)%nat ->
  ingest env videoUrl videoId namespace context finalConfig w = (Return tt, w') ->
  exists stamp,
    embeddingCache w' !! namespace = Some stamp /\
    forall later,
      embeddingCache later !! namespace = Some stamp ->
      dateNow env later - stamp < 24 * 60 * 60 * 1000 ->
      namespaceExists env namespace later = (Return (JsBool true), later).
Proof.
  intros Hmax. unfold ingest.
  rewrite bind_run. unfold modify at 1. cbv beta iota.
  rewrite bind_run. destruct (loadTranscript env _ _ _) as [[docs | e] w1]; [| done].
  destruct (transcriptMissing env docs); [done |].
  rewrite bind_run. destruct (call (SplitText _) _ w1) as [[textChunks | e] w2]; [| done].
  rewrite bind_run. unfold gets at 1. cbv beta iota.
  rewrite bind_run. destruct (call (FromExistingIndex _) _ w2) as [[[] | e] w3]; [| done].
  intros Hloop.
  pose proof (storeWithRetries_outcome_from env finalConfig namespace
                (chunkDocuments env videoUrl videoId (newDate env w2) textChunks)
                (maxRetries finalConfig) 0 w3 ltac:(lia) Hmax) as H.
  cbv zeta in H. rewrite Hloop in H. simpl in H. destruct H as [stamp Hcache].
  exists stamp. split; [rewrite Hcache; apply lookup_insert_eq |].
  intros later Hrecord Hage. by eapply namespaceExists_fresh.
Qed.

Lemma ingest_then_cached_witness :
  exists stamp,
    embeddingCache
      (snd (ingest flakyStore Fixture.rickUrl "dQw4w9WgXcQ" "yt-dQw4w9WgXcQ"
              Fixture.rickContext DEFAULT_CONFIG Fixture.emptyWorld))
      !! "yt-dQw4w9WgXcQ" = Some stamp.
Proof.
  destruct (ingest_then_cached flakyStore Fixture.rickUrl "dQw4w9WgXcQ" "yt-dQw4w9WgXcQ"
              Fixture.rickContext DEFAULT_CONFIG Fixture.emptyWorld
              (snd (ingest flakyStore Fixture.rickUrl "dQw4w9WgXcQ" "yt-dQw4w9WgXcQ"
                      Fixture.rickContext DEFAULT_CONFIG Fixture.emptyWorld)))
    as (stamp & Hstamp & _).
  - simpl. lia.
  - vm_compute. reflexivity.
  - exists stamp. exact Hstamp.
Defined.

(** ** The calls of one request through the route *)

(** A request that passes the check imports the module first, then makes
    the calls of [askYoutube] under the default configuration (none when
    the URL yields no video id), and last, at most once, streams the chain
    with the request's query. *)
Theorem postAskYoutube_calls env req w :
  truthyString (r_videoUrl req) = true ->
  truthyString (r_query req) = true ->
  let videoUrl := default "" (r_videoUrl req) in
  let query := default "" (r_query req) in
  exists evs tail,
    trace (snd (postAskYoutube env req w))
    = (trace w ++ ImportYoutubeModule :: evs ++ tail)%list /\
    match urlSearchParam env videoUrl "v" with
    | Return (Some videoId) =>
        forallb (requestFootprint videoUrl ("yt-" +:+ videoId) query DEFAULT_CONFIG
                   (truthyString (r_transcript req))) evs = true
    | _ => evs = []
    end /\
    (tail = [] \/ tail = [ChainStream query]).
Proof.
  intros Hurl Hquery videoUrl query. unfold postAskYoutube.
  rewrite Hurl, Hquery. cbn [negb orb]. unfold call. cbv beta iota zeta.
  fold videoUrl query.
  destruct (importYoutubeModule env (emit ImportYoutubeModule w)) as [[] | err];
    cbv beta iota.
  2: { exists [], []. rewrite respondError_trace. simpl.
       split; [done |]. split; [| by left].
       by destruct (urlSearchParam env videoUrl "v") as [[videoId |] | error]. }
  set (context := MkContext _ _ _ _).
  assert (Hfoot : exists evs,
            trace (snd (askYoutube env videoUrl query context noOverrides
                          (emit ImportYoutubeModule w)))
            = (trace w ++ ImportYoutubeModule :: evs)%list /\
            match urlSearchParam env videoUrl "v" with
            | Return (Some videoId) =>
                forallb (requestFootprint videoUrl ("yt-" +:+ videoId) query DEFAULT_CONFIG
                           (truthyString (r_transcript req))) evs = true
            | _ => evs = []
            end).
  { rewrite askYoutube_run.
    destruct (urlSearchParam env videoUrl "v") as [[videoId |] | error];
      try (exists []; split; [done | done]).
    destruct (String.eqb videoId "");
      [exists []; split; [done | done] |].
    destruct (pipeline_footprint env videoUrl videoId query context
                (mergeConfig DEFAULT_CONFIG noOverrides) (emit ImportYoutubeModule w))
      as (evs & Htrace & Hall).
    exists evs. split; [rewrite Htrace; simpl; by rewrite <- app_assoc | exact Hall]. }
  destruct Hfoot as (evs & Htrace & Hall).
  destruct (askYoutube env videoUrl query context noOverrides _)
    as [[[result | chain] | err] w2]; cbv beta iota; simpl in Htrace.
  - exists evs, []. rewrite app_nil_r. simpl. split; [done |]. split; [done | by left].
  - assert (Hstream : trace (emit (ChainStream query) w2)
                      = (trace w ++ ImportYoutubeModule :: evs ++ [ChainStream query])%list).
    { simpl. rewrite Htrace. by rewrite <- app_assoc. }
    exists evs, [ChainStream query].
    split; [| split; [done | by right]].
    destruct (chainStream env _ _ _) as [stream | err]; cbv beta iota.
    + destruct (failure stream); [by rewrite respondError_trace | done].
    + by rewrite respondError_trace.
  - exists evs, []. rewrite respondError_trace, app_nil_r.
    split; [done |]. split; [done | by left].
Qed.

Lemma postAskYoutube_calls_witness :
  exists evs tail,
    trace (snd (postAskYoutube brokenStream rickRequest cachedWorld))
    = (trace cachedWorld ++ ImportYoutubeModule :: evs ++ tail)%list /\
    (tail = [] \/ tail = [ChainStream "What is this video about?"]).
Proof.
  destruct (postAskYoutube_calls brokenStream rickRequest cachedWorld eq_refl eq_refl)
    as (evs & tail & Htrace & _ & Htail).
  exists evs, tail. split; [exact Htrace | exact Htail].
Defined.

(** ** How long the write loop can wait *)

Section RetryWait.

Variable env : Env.
Variable finalConfig : Config.
Variable namespace : string.
Variable documents : list Document.
Hypothesis delay_nonneg : 0 <= retryDelay finalConfig.

Lemma waited_app evs1 evs2 : waited (evs1 ++ evs2) = waited evs1 + waited evs2.
Proof.
  induction evs1 as [| e evs1 IH]; [done |].
  destruct e; simpl; rewrite ?IH; lia.
Qed.

Lemma storeWithRetries_wait_from fuel attempts w :
  (attempts < maxRetries finalConfig)%nat ->
  exists evs,
    trace (snd (storeWithRetries env fuel finalConfig namespace documents attempts w))
    = (trace w ++ evs)%list /\
    2 * waited evs
    <= retryDelay finalConfig
       * (2 + Z.of_nat (maxRetries finalConfig) * (Z.of_nat (maxRetries finalConfig) - 1)
          - Z.of_nat attempts * (Z.of_nat attempts + 1)).
Proof.
  revert attempts w. induction fuel as [| fuel IH]; intros attempts w Hlt.
  { exists []. simpl. rewrite app_nil_r. split; [done | nia]. }
  rewrite storeWithRetries_step by done.
  destruct (addDocuments env _ namespace documents) as [| error stored].
  { exists [AddDocuments namespace documents; SetTimeout (retryDelay finalConfig)].
    split; [simpl; by rewrite <- app_assoc |]. simpl. nia. }
  destruct (Nat.eqb_spec (S attempts) (maxRetries finalConfig)) as [Heq | Hne].
  { exists [AddDocuments namespace documents]. split; [done |]. simpl. nia. }
  destruct (IH (S attempts)
               (emit (SetTimeout (retryDelay finalConfig * Z.of_nat (S attempts)))
                     (writeFailed env namespace documents (S attempts) error stored w))
               ltac:(lia)) as (evs & Htrace & Hwait).
  exists ([AddDocuments namespace documents;
           SetTimeout (retryDelay finalConfig * Z.of_nat (S attempts))] ++ evs)%list.
  split; [rewrite Htrace; simpl; by rewrite <- !app_assoc |].
  rewrite waited_app. simpl waited. nia.
Qed.

(** With a non-negative [retryDelay] d and [maxRetries] n, the waits of the
    write loop add up to at most d * (1 + n * (n - 1) / 2) milliseconds:
    8 seconds under the default configuration. *)
Theorem storeWithRetries_wait_bound w :
  exists evs,
    trace (snd (storeWithRetries env (maxRetries finalConfig) finalConfig namespace
                  documents 0 w))
    = (trace w ++ evs)%list /\
    2 * waited evs
    <= retryDelay finalConfig
       * (2 + Z.of_nat (maxRetries finalConfig) * (Z.of_nat (maxRetries finalConfig) - 1)).
Proof.
  destruct (Nat.eq_dec (maxRetries finalConfig) 0%nat) as [Hzero | Hpos].
  - rewrite Hzero. exists []. simpl. rewrite app_nil_r. split; [done | lia].
  - destruct (storeWithRetries_wait_from (maxRetries finalConfig) 0 w ltac:(lia))
      as (evs & Htrace & Hwait).
    exists evs. split; [exact Htrace |]. simpl in Hwait. lia.
Qed.

End RetryWait.

Lemma storeWithRetries_wait_bound_witness :
  exists evs,
    trace (snd (storeWithRetries flakyStore 3 DEFAULT_CONFIG "yt-dQw4w9WgXcQ"
                  [Fixture.rickChunk] 0 Fixture.emptyWorld))
    = (trace Fixture.emptyWorld ++ evs)%list /\
    2 * waited evs <= 2000 * (2 + 3 * (3 - 1)).
Proof.
  apply (storeWithRetries_wait_bound flakyStore DEFAULT_CONFIG "yt-dQw4w9WgXcQ"
           [Fixture.rickChunk]).
  simpl. lia.
Defined.
